(** * Grade generator: a shallow embedding of [grade-generator.py]

    The program reads assignment records from the terminal, aggregates them
    into category totals, a final grade, a GPA and a pass verdict, prints a
    summary and writes the records to [grades.csv].

    Modelling choices.
    - A Python [float] is read in two ways.  In the main development it is
      an exact rational ([Q]): arithmetic is the arithmetic of the reals,
      without rounding, infinities or NaN, and equalities between numbers are
      stated with [==].  The module [IEEE] gives the numeric code and the
      persister on binary64 values, with rounding, infinities, signed zeros
      and NaN; the statements about what is written to the file, and the runs
      on which the two readings part, are made there.
    - The built-in [float(raw)] is a parameter of the validator: any function
      from strings to optional rationals, [None] standing for [ValueError].
      [Literal.float] reads plain decimal literals and serves to run the
      program on concrete sessions.
    - A Python [str] is a [string] of 8-bit characters; [strip], [upper] and
      [lower] follow Python on the ASCII range only, so the statements that
      say which lines a prompt rejects are made for lines of ASCII
      characters.
    - The dictionary of totals is a record with one field per key, and the
      [csv] module is modelled with its default dialect.
    - The terminal and the file system are an explicit [World]; the functions
      that do input or output are written in a small state-and-exception
      monad over it.  [input] on an exhausted terminal raises [EOFError].
    - A [while True] loop is a [Fixpoint] on a fuel argument; running out of
      fuel is the outcome [Diverges], which is shown never to happen once the
      fuel exceeds the number of lines left on the terminal. *)

From Stdlib Require Import List String Ascii Bool Arith ZArith QArith Qround Qabs Lia Lqa.
From Stdlib Require Import DecimalString DecimalNat DecimalN.
From Stdlib Require Import SpecFloat.
Import ListNotations.

Local Open Scope string_scope.
Local Open Scope Q_scope.

(** ** Python built-ins on numbers *)

(** [x < y] on floats, as a boolean. *)
Definition Qlt_bool (x y : Q) : bool := negb (Qle_bool y x).

(** The built-in [sum]: a left fold of [+] that starts from [0]. *)
Definition sum (xs : list Q) : Q := fold_left Qplus xs 0.

(** True division; a zero divisor raises [ZeroDivisionError] ([None]). *)
Definition truediv (x y : Q) : option Q :=
  if Qeq_bool y 0 then None else Some (x / y).

(** ** Python built-ins on strings *)

Module Str.

(** [str.isspace] on one ASCII character: tab, line feed, vertical tab,
    form feed, carriage return, the four separators 28..31 and space. *)
Definition is_space (c : ascii) : bool :=
  let n := nat_of_ascii c in
  ((9 <=? n) && (n <=? 13) || (28 <=? n) && (n <=? 32))%nat.

Fixpoint lstrip_chars (cs : list ascii) : list ascii :=
  match cs with
  | c :: cs' => if is_space c then lstrip_chars cs' else cs
  | [] => []
  end.

Definition strip_chars (cs : list ascii) : list ascii :=
  rev (lstrip_chars (rev (lstrip_chars cs))).

(** [s.strip()] *)
Definition strip (s : string) : string :=
  string_of_list_ascii (strip_chars (list_ascii_of_string s)).

Definition upper_char (c : ascii) : ascii :=
  let n := nat_of_ascii c in
  if ((97 <=? n) && (n <=? 122))%nat then ascii_of_nat (n - 32) else c.

Definition lower_char (c : ascii) : ascii :=
  let n := nat_of_ascii c in
  if ((65 <=? n) && (n <=? 90))%nat then ascii_of_nat (n + 32) else c.

Fixpoint map_chars (f : ascii -> ascii) (s : string) : string :=
  match s with
  | EmptyString => EmptyString
  | String c s' => String (f c) (map_chars f s')
  end.

(** [s.upper()] and [s.lower()] *)
Definition upper (s : string) : string := map_chars upper_char s.
Definition lower (s : string) : string := map_chars lower_char s.

(** Truth value of a string: [if value:] *)
Definition truthy (s : string) : bool :=
  match s with EmptyString => false | String _ _ => true end.

Definition nl : string := String "010"%char EmptyString.

(** [str(n)] for a non-negative integer *)
Definition of_nat (n : nat) : string := NilZero.string_of_uint (Nat.to_uint n).
Definition of_N (n : N) : string := NilZero.string_of_uint (N.to_uint n).

Definition is_digit (c : ascii) : bool :=
  let n := nat_of_ascii c in ((48 <=? n) && (n <=? 57))%nat.

Fixpoint all_digits (s : string) : bool :=
  match s with
  | EmptyString => true
  | String c s' => is_digit c && all_digits s'
  end.

End Str.

(** ** The data model *)

Record Assignment : Type := mkAssignment {
  name : string;
  category : string;  (* 'FA' or 'SA' *)
  grade : Q;          (* 0-100 *)
  weight : Q          (* > 0 *)
}.

Definition weighted_grade (self : Assignment) : Q :=
  (grade self / 100) * weight self.

(** ** The aggregator *)

(** The dictionary that [calculate_totals] returns: nine fixed keys. *)
Record Totals : Type := mkTotals {
  total_formative : Q;
  total_summative : Q;
  total_fa_weight : Q;
  total_sa_weight : Q;
  final_grade : Q;
  gpa : Q;
  fa_threshold : Q;
  sa_threshold : Q;
  passes : bool
}.

Definition in_category (c : string) (a : Assignment) : bool :=
  String.eqb (category a) c.

Definition calculate_totals (assignments : list Assignment) : Totals :=
  let total_formative :=
    sum (map weighted_grade (filter (in_category "FA") assignments)) in
  let total_summative :=
    sum (map weighted_grade (filter (in_category "SA") assignments)) in
  let total_fa_weight := sum (map weight (filter (in_category "FA") assignments)) in
  let total_sa_weight := sum (map weight (filter (in_category "SA") assignments)) in
  let final_grade := total_formative + total_summative in
  let gpa := (final_grade / 100) * 5 in
  let fa_threshold := total_fa_weight * (1 # 2) in
  let sa_threshold := total_sa_weight * (1 # 2) in
  let passes :=
    (if Qlt_bool 0 total_fa_weight
     then Qle_bool fa_threshold total_formative else true)
    && (if Qlt_bool 0 total_sa_weight
        then Qle_bool sa_threshold total_summative else true) in
  {| total_formative := total_formative;
     total_summative := total_summative;
     total_fa_weight := total_fa_weight;
     total_sa_weight := total_sa_weight;
     final_grade := final_grade;
     gpa := gpa;
     fa_threshold := fa_threshold;
     sa_threshold := sa_threshold;
     passes := passes |}.

Definition format_percentage (value total_weight : Q) : option Q :=
  if Qle_bool total_weight 0 then Some 0
  else match truediv value total_weight with
       | Some q => Some (q * 100)
       | None => None
       end.

(** ** The terminal, the file system and the monad of effects *)

(** A file is the sequence of strings written to it since it was opened;
    its text is their concatenation. *)
Definition File : Type := list string.

Record World : Type := mkWorld {
  stdin : list string;            (* the lines still to be typed *)
  stdout : list string;           (* what was written, oldest first *)
  files : list (string * File)    (* the working directory *)
}.

Inductive exn : Type := EOFError | ZeroDivisionError.

Inductive outcome (A : Type) : Type :=
| Returns (a : A) (w : World)
| Raises (e : exn) (w : World)
| Diverges.

Arguments Returns {A} a w.
Arguments Raises {A} e w.
Arguments Diverges {A}.

Definition M (A : Type) : Type := World -> outcome A.

Definition ret {A} (a : A) : M A := fun w => Returns a w.

Definition bind {A B} (c : M A) (k : A -> M B) : M B :=
  fun w =>
    match c w with
    | Returns a w' => k a w'
    | Raises e w' => Raises e w'
    | Diverges => Diverges
    end.

Definition raise {A} (e : exn) : M A := fun w => Raises e w.

Definition diverge {A} : M A := fun _ => Diverges.

Declare Scope py_scope.
Delimit Scope py_scope with py.
Notation "x <- c ;; k" := (bind c (fun x => k))
  (at level 61, c at next level, right associativity) : py_scope.
Notation "c ;; k" := (bind c (fun _ => k))
  (at level 61, right associativity) : py_scope.
Local Open Scope py_scope.

(** The world after [s] was written to the terminal. *)
Definition emit (s : string) (w : World) : World :=
  {| stdin := stdin w; stdout := (stdout w ++ [s])%list; files := files w |}.

Definition write_stdout (s : string) : M unit := fun w => Returns tt (emit s w).

(** [print(s)] *)
Definition print (s : string) : M unit := write_stdout (s ++ Str.nl).

(** [input(prompt_text)]: shows the prompt and reads one line, without its
    line terminator. *)
Definition input (prompt_text : string) : M string :=
  write_stdout prompt_text ;;
  fun w =>
    match stdin w with
    | [] => Raises EOFError w
    | line :: rest =>
        Returns line {| stdin := rest; stdout := stdout w; files := files w |}
    end.

(** [open(filename, mode="w")] followed by the writes and the close of the
    [with] block: the file is created or replaced.  A failure of [open] or of
    a write ([OSError], [UnicodeEncodeError]) is not modelled: what is stated
    of [write_csv] is stated of the runs in which it returns. *)
Definition store (filename : string) (f : File) : M unit :=
  fun w =>
    Returns tt
      {| stdin := stdin w;
         stdout := stdout w;
         files := (filename, f)
                  :: filter (fun p => negb (String.eqb (fst p) filename)) (files w) |}.

Definition lookup (filename : string) (w : World) : option File :=
  match find (fun p => String.eqb (fst p) filename) (files w) with
  | Some p => Some (snd p)
  | None => None
  end.

(** ** The record validator *)

Fixpoint prompt_non_empty (fuel : nat) (prompt_text : string) : M string :=
  match fuel with
  | O => diverge
  | S fuel =>
      line <- input prompt_text ;;
      let value := Str.strip line in
      if Str.truthy value then ret value
      else print "Value cannot be empty." ;; prompt_non_empty fuel prompt_text
  end.

Fixpoint prompt_category (fuel : nat) : M string :=
  match fuel with
  | O => diverge
  | S fuel =>
      line <- input "Category (FA/SA): " ;;
      let category := Str.upper (Str.strip line) in
      if String.eqb category "FA" || String.eqb category "SA" then ret category
      else print "Category must be 'FA' or 'SA'" ;; prompt_category fuel
  end.

Fixpoint prompt_continue (fuel : nat) : M bool :=
  match fuel with
  | O => diverge
  | S fuel =>
      line <- input "Add another assignment? (y/n): " ;;
      let response := Str.lower (Str.strip line) in
      if String.eqb response "y" || String.eqb response "yes" then ret true
      else if String.eqb response "n" || String.eqb response "no" then ret false
      else print "Please enter 'y' or 'n'." ;; prompt_continue fuel
  end.

Section Validator.

(** The built-in [float(raw)]: [None] is a [ValueError]. *)
Variable float : string -> option Q.

Fixpoint prompt_grade (fuel : nat) : M Q :=
  match fuel with
  | O => diverge
  | S fuel =>
      line <- input "Grade (0-100): " ;;
      let raw := Str.strip line in
      match float raw with
      | None => print "Grade must be between 0 and 100" ;; prompt_grade fuel
      | Some grade =>
          if Qle_bool 0 grade && Qle_bool grade 100 then ret grade
          else print "Grade must be between 0 and 100" ;; prompt_grade fuel
      end
  end.

Fixpoint prompt_weight (fuel : nat) : M Q :=
  match fuel with
  | O => diverge
  | S fuel =>
      line <- input "Weight (> 0): " ;;
      let raw := Str.strip line in
      match float raw with
      | None => print "Weight must be a positive number" ;; prompt_weight fuel
      | Some weight =>
          if Qlt_bool 0 weight then ret weight
          else print "Weight must be a positive number" ;; prompt_weight fuel
      end
  end.

(** The loop of [collect_assignments]; [assignments] is the list built so
    far, to which each round appends one record. *)
Fixpoint collect_loop (fuel : nat) (assignments : list Assignment)
  : M (list Assignment) :=
  match fuel with
  | O => diverge
  | S fuel' =>
      print (Str.nl ++ "Enter assignment details:") ;;
      name <- prompt_non_empty fuel "Assignment Name: " ;;
      category <- prompt_category fuel ;;
      grade <- prompt_grade fuel ;;
      weight <- prompt_weight fuel ;;
      let assignments :=
        (assignments ++ [mkAssignment name category grade weight])%list in
      continue <- prompt_continue fuel ;;
      if negb continue then ret assignments
      else collect_loop fuel' assignments
  end.

Definition collect_assignments (fuel : nat) : M (list Assignment) :=
  collect_loop fuel [].

End Validator.

(** ** Number formatting *)

Module Fmt.

(** Rounding to the nearest integer, ties to the even one. *)
Definition round_half_even (x : Q) : Z :=
  let f := Qfloor x in
  match Qcompare (x - inject_Z f) (1 # 2) with
  | Lt => f
  | Gt => (f + 1)%Z
  | Eq => if Z.even f then f else (f + 1)%Z
  end.

Definition digit (d : N) : ascii := ascii_of_N (48 + d).

Definition two_digits (n : N) : string :=
  String (digit (n / 10)) (String (digit (n mod 10)) EmptyString).

(** The format [{x:.2f}]: an optional sign, the integer part, a point and
    two decimals. *)
Definition fixed2 (x : Q) : string :=
  let hundredths := Z.to_N (round_half_even (Qabs x * 100)) in
  (if Qlt_bool x 0 then "-" else "")
  ++ Str.of_N (hundredths / 100) ++ "." ++ two_digits (hundredths mod 100).

End Fmt.

(** ** The presenter *)

(** The [for] loop over [enumerate(assignments, start=idx)]. *)
Fixpoint print_assignments (idx : nat) (assignments : list Assignment) : M unit :=
  match assignments with
  | [] => ret tt
  | assignment :: rest =>
      print (Str.of_nat idx ++ ". " ++ name assignment
             ++ " (" ++ category assignment ++ "): "
             ++ Fmt.fixed2 (grade assignment) ++ "% - Weight: "
             ++ Fmt.fixed2 (weight assignment) ++ " - "
             ++ "Weighted: " ++ Fmt.fixed2 (weighted_grade assignment)) ;;
      print_assignments (S idx) rest
  end.

(** A pure function that may raise, run inside the monad. *)
Definition lift {A} (e : exn) (o : option A) : M A :=
  match o with
  | Some a => ret a
  | None => raise e
  end.

Definition print_summary (assignments : list Assignment) (totals : Totals) : M unit :=
  let total_formative := total_formative totals in
  let total_summative := total_summative totals in
  let total_fa_weight := total_fa_weight totals in
  let total_sa_weight := total_sa_weight totals in
  let fa_threshold := fa_threshold totals in
  let sa_threshold := sa_threshold totals in
  let final_grade := final_grade totals in
  let gpa := gpa totals in
  let passes := passes totals in
  print (Str.nl ++ "=== GRADE SUMMARY ===" ++ Str.nl) ;;
  print "Assignments Entered:" ;;
  print_assignments 1 assignments ;;
  print (Str.nl ++ "Category Breakdown:") ;;
  fa_percentage <-
    lift ZeroDivisionError (format_percentage total_formative total_fa_weight) ;;
  sa_percentage <-
    lift ZeroDivisionError (format_percentage total_summative total_sa_weight) ;;
  print ("- Total Formative (FA): " ++ Fmt.fixed2 total_formative ++ "/"
         ++ Fmt.fixed2 total_fa_weight ++ " "
         ++ "(" ++ Fmt.fixed2 fa_percentage ++ "%)") ;;
  print ("- Total Summative (SA): " ++ Fmt.fixed2 total_summative ++ "/"
         ++ Fmt.fixed2 total_sa_weight ++ " "
         ++ "(" ++ Fmt.fixed2 sa_percentage ++ "%)") ;;
  print (Str.nl ++ "Final Results:") ;;
  print ("- Total Grade: " ++ Fmt.fixed2 final_grade ++ "/100") ;;
  print ("- GPA: " ++ Fmt.fixed2 gpa ++ "/5.0") ;;
  print ("- Status: " ++ (if passes then "PASS" else "FAIL")) ;;
  if negb passes then
    (if Qlt_bool 0 total_fa_weight && Qlt_bool total_formative fa_threshold
     then print ("Failed FA (achieved " ++ Fmt.fixed2 total_formative
                 ++ " / need " ++ Fmt.fixed2 fa_threshold ++ ")")
     else ret tt) ;;
    (if Qlt_bool 0 total_sa_weight && Qlt_bool total_summative sa_threshold
     then print ("Failed SA (achieved " ++ Fmt.fixed2 total_summative
                 ++ " / need " ++ Fmt.fixed2 sa_threshold ++ ")")
     else ret tt)
  else ret tt.

(** ** The persister *)

(** The standard [csv] module with its default dialect: delimiter [,], quote
    character 34, minimal quoting with doubled quotes, line terminator
    carriage return and line feed. *)
Module Csv.

Definition delimiter : ascii := ","%char.
Definition quotechar : ascii := "034"%char.
Definition lineterminator : string :=
  String "013"%char (String "010"%char EmptyString).

Definition special (c : ascii) : bool :=
  Ascii.eqb c delimiter || Ascii.eqb c quotechar
  || Ascii.eqb c "013"%char || Ascii.eqb c "010"%char.

Fixpoint has_special (s : string) : bool :=
  match s with
  | EmptyString => false
  | String c s' => special c || has_special s'
  end.

Fixpoint double_quotes (s : string) : string :=
  match s with
  | EmptyString => EmptyString
  | String c s' =>
      if Ascii.eqb c quotechar
      then String quotechar (String quotechar (double_quotes s'))
      else String c (double_quotes s')
  end.

(** One field as the writer emits it. *)
Definition field (s : string) : string :=
  if has_special s
  then String quotechar (double_quotes s ++ String quotechar EmptyString)
  else s.

Fixpoint join (fields : list string) : string :=
  match fields with
  | [] => EmptyString
  | [f] => f
  | f :: rest => f ++ String delimiter (join rest)
  end.

(** [writer.writerow(fields)]: one write of the joined fields and the line
    terminator.  A row made of a single empty field is written quoted. *)
Definition line (fields : list string) : string :=
  match fields with
  | [f] =>
      if Str.truthy f then field f
      else String quotechar (String quotechar EmptyString)
  | _ => join (map field fields)
  end ++ lineterminator.

(** [rowdict.get(key, "")] *)
Fixpoint get (key : string) (rowdict : list (string * string)) : string :=
  match rowdict with
  | [] => EmptyString
  | (k, v) :: rest => if String.eqb k key then v else get key rest
  end.

(** [DictWriter.writeheader] and [DictWriter.writerow]; the keys of
    [rowdict] are field names, so no key is rejected as an extra. *)
Definition writeheader (fieldnames : list string) (csvfile : File) : File :=
  (csvfile ++ [line fieldnames])%list.

Definition writerow (fieldnames : list string) (csvfile : File)
           (rowdict : list (string * string)) : File :=
  (csvfile ++ [line (map (fun key => get key rowdict) fieldnames)])%list.

End Csv.

Definition write_csv (assignments : list Assignment) (filename : string) : M unit :=
  let fieldnames := ["Assignment"; "Category"; "Grade"; "Weight"] in
  let csvfile := Csv.writeheader fieldnames [] in
  let csvfile :=
    fold_left
      (fun csvfile assignment =>
         Csv.writerow fieldnames csvfile
           [("Assignment", name assignment);
            ("Category", category assignment);
            ("Grade", Fmt.fixed2 (grade assignment));
            ("Weight", Fmt.fixed2 (weight assignment))])
      assignments csvfile in
  store filename csvfile.

(** ** The session *)

Definition is_empty {A} (l : list A) : bool :=
  match l with [] => true | _ :: _ => false end.

(** What [main] does with the collected list. *)
Definition main_body (assignments : list Assignment) : M unit :=
  if is_empty assignments
  then print "No assignments entered. Exiting without generating summary."
  else
    let totals := calculate_totals assignments in
    print_summary assignments totals ;;
    write_csv assignments "grades.csv" ;;
    print (Str.nl ++ "Data saved to grades.csv").

Definition main (float : string -> option Q) (fuel : nat) : M unit :=
  assignments <- collect_assignments float fuel ;;
  main_body assignments.

(** The initial world of a run: the lines the user will type, nothing
    printed yet, and a working directory. *)
Definition session (lines : list string) (dir : list (string * File)) : World :=
  {| stdin := lines; stdout := []; files := dir |}.

(** A reader of plain decimal literals ([12], [7.5], [-3.25]), used to run
    the program on concrete sessions. *)
Module Literal.

Fixpoint digits (s : string) (acc : N) : option (N * nat) :=
  match s with
  | EmptyString => Some (acc, O)
  | String c s' =>
      if Str.is_digit c
      then match digits s' (acc * 10 + (N_of_ascii c - 48))%N with
           | Some (n, k) => Some (n, S k)
           | None => None
           end
      else None
  end.

Fixpoint split_point (s : string) : string * option string :=
  match s with
  | EmptyString => (EmptyString, None)
  | String c s' =>
      if Ascii.eqb c "."%char then (EmptyString, Some s')
      else let (i, f) := split_point s' in (String c i, f)
  end.

Definition unsigned (s : string) : option Q :=
  let (i, f) := split_point s in
  let f := match f with Some f => f | None => EmptyString end in
  match i, f with
  | EmptyString, EmptyString => None
  | _, _ =>
      match digits i 0, digits f 0 with
      | Some (n, _), Some (m, k) =>
          Some (inject_Z (Z.of_N n)
                + (Z.of_N m # Pos.of_nat (10 ^ k)))
      | _, _ => None
      end
  end.

Definition float (s : string) : option Q :=
  match s with
  | String "-"%char s' =>
      match unsigned s' with Some q => Some (- q) | None => None end
  | String "+"%char s' => unsigned s'
  | _ => unsigned s
  end.

End Literal.

(** ** The numeric code on IEEE doubles

    The definitions above read a [float] as an exact number.  This module
    gives the same functions on binary64 values as Python computes them:
    rounding to nearest with ties to even, overflow to an infinity, signed
    zeros and NaN.  It serves to run the numeric code on the values that the
    exact reading cannot hold. *)
Module IEEE.

Definition float : Type := spec_float.

Definition prec : Z := 53.
Definition emax : Z := 1024.

Definition add : float -> float -> float := SFadd prec emax.
Definition mul : float -> float -> float := SFmul prec emax.
Definition div : float -> float -> float := SFdiv prec emax.
Definition ltb : float -> float -> bool := SFltb.
Definition leb : float -> float -> bool := SFleb.
Definition eqb : float -> float -> bool := SFeqb.

(** The double nearest to [m * 2 ^ e]; [of_Z z] is the literal [z.0]. *)
Definition of_binary (m e : Z) : float := binary_normalize prec emax m e false.
Definition of_Z (z : Z) : float := of_binary z 0.

Definition zero : float := S754_zero false.
Definition inf : float := S754_infinity false.
Definition nan : float := S754_nan.

Definition is_finite (x : float) : bool :=
  match x with
  | S754_zero _ | S754_finite _ _ _ => true
  | S754_infinity _ | S754_nan => false
  end.

Definition sign_bit (x : float) : bool :=
  match x with
  | S754_zero s | S754_infinity s | S754_finite s _ _ => s
  | S754_nan => false
  end.

(** The absolute value of a finite double, as an exact number. *)
Definition magnitude (x : float) : Q :=
  match x with
  | S754_finite _ m (Zneg p) => Zpos m # (2 ^ p)%positive
  | S754_finite _ m e => inject_Z (Zpos m * 2 ^ e)
  | _ => 0
  end.

(** The built-in [sum]: a left fold of [+] from the integer [0], which
    behaves as [+0.0]. *)
Definition sum (xs : list float) : float := fold_left add xs zero.

Record Assignment : Type := mkAssignment {
  name : string;
  category : string;  (* 'FA' or 'SA' *)
  grade : float;      (* 0-100 *)
  weight : float      (* > 0 *)
}.

Definition weighted_grade (self : Assignment) : float :=
  mul (div (grade self) (of_Z 100)) (weight self).

Record Totals : Type := mkTotals {
  total_formative : float;
  total_summative : float;
  total_fa_weight : float;
  total_sa_weight : float;
  final_grade : float;
  gpa : float;
  fa_threshold : float;
  sa_threshold : float;
  passes : bool
}.

Definition in_category (c : string) (a : Assignment) : bool :=
  String.eqb (category a) c.

Definition calculate_totals (assignments : list Assignment) : Totals :=
  let total_formative :=
    sum (map weighted_grade (filter (in_category "FA") assignments)) in
  let total_summative :=
    sum (map weighted_grade (filter (in_category "SA") assignments)) in
  let total_fa_weight := sum (map weight (filter (in_category "FA") assignments)) in
  let total_sa_weight := sum (map weight (filter (in_category "SA") assignments)) in
  let final_grade := add total_formative total_summative in
  let gpa := mul (div final_grade (of_Z 100)) (of_Z 5) in
  let fa_threshold := mul total_fa_weight (of_binary 1 (-1)) in
  let sa_threshold := mul total_sa_weight (of_binary 1 (-1)) in
  let passes :=
    (if ltb zero total_fa_weight
     then leb fa_threshold total_formative else true)
    && (if ltb zero total_sa_weight
        then leb sa_threshold total_summative else true) in
  {| total_formative := total_formative;
     total_summative := total_summative;
     total_fa_weight := total_fa_weight;
     total_sa_weight := total_sa_weight;
     final_grade := final_grade;
     gpa := gpa;
     fa_threshold := fa_threshold;
     sa_threshold := sa_threshold;
     passes := passes |}.

(** The format [{x:.2f}] of a double: the sign when the sign bit is set, then
    the magnitude rounded to the nearest hundredth, ties to even; an infinity
    and NaN have no digits. *)
Definition fixed2 (x : float) : string :=
  match x with
  | S754_nan => "nan"
  | S754_infinity s => if s then "-inf" else "inf"
  | _ => (if sign_bit x then "-" else "") ++ Fmt.fixed2 (magnitude x)
  end.

Definition write_csv (assignments : list Assignment) (filename : string) : M unit :=
  let fieldnames := ["Assignment"; "Category"; "Grade"; "Weight"] in
  let csvfile := Csv.writeheader fieldnames [] in
  let csvfile :=
    fold_left
      (fun csvfile assignment =>
         Csv.writerow fieldnames csvfile
           [("Assignment", name assignment);
            ("Category", category assignment);
            ("Grade", fixed2 (grade assignment));
            ("Weight", fixed2 (weight assignment))])
      assignments csvfile in
  store filename csvfile.

Section Validator.

(** The built-in [float(raw)] with doubles as values. *)
Variable float_of : string -> option float.

Fixpoint prompt_weight (fuel : nat) : M float :=
  match fuel with
  | O => diverge
  | S fuel =>
      line <- input "Weight (> 0): " ;;
      let raw := Str.strip line in
      match float_of raw with
      | None => print "Weight must be a positive number" ;; prompt_weight fuel
      | Some weight =>
          if ltb zero weight then ret weight
          else print "Weight must be a positive number" ;; prompt_weight fuel
      end
  end.

End Validator.

End IEEE.

(** Text with exactly two decimal digits: an optional sign, at least one
    digit, a point and two digits. *)
Definition two_decimals (s : string) : Prop :=
  exists sign int d1 d2,
    s = (sign ++ int ++ "." ++ String d1 (String d2 EmptyString))%string
    /\ (sign = EmptyString \/ sign = "-")
    /\ int <> EmptyString
    /\ Str.all_digits int = true
    /\ Str.is_digit d1 = true
    /\ Str.is_digit d2 = true.

(** Every character of the line is an ASCII character (below 128), where
    [Str.strip], [Str.upper] and [Str.lower] are Python's [strip], [upper]
    and [lower]. *)
Fixpoint ascii_line (s : string) : bool :=
  match s with
  | EmptyString => true
  | String c s' => (nat_of_ascii c <? 128)%nat && ascii_line s'
  end.

(** ** Predicates used in the statements *)

(** The invariants of the data model on one record. *)
Definition valid_record (a : Assignment) : Prop :=
  Str.strip (name a) <> EmptyString
  /\ (category a = "FA" \/ category a = "SA")
  /\ 0 <= grade a <= 100
  /\ 0 < weight a.

(** The records of one category, their total weight and their total weighted
    score, read off the record sequence in entry order. *)
Definition records_of (c : string) (l : list Assignment) : list Assignment :=
  filter (fun a => String.eqb (category a) c) l.

Definition category_weight (c : string) (l : list Assignment) : Q :=
  sum (map weight (records_of c l)).

Definition category_score (c : string) (l : list Assignment) : Q :=
  sum (map (fun a => (grade a / 100) * weight a) (records_of c l)).

(** The threshold rule in the words of the specification: a category passes
    when its total weight is 0 or its total weighted score is at least half
    its total weight. *)
Definition category_passes (total_weight achieved : Q) : Prop :=
  total_weight == 0 \/ total_weight * (1 # 2) <= achieved.

(** What a run of a prompting loop can end in, seen from a point where [n]
    lines were left on the terminal and the files were [fs]: a value
    satisfying [post] after at least one more line was read, with the files
    untouched; the end of the input; or a lack of fuel, which more fuel than
    there were lines left rules out. *)
Definition outcome_within {A} (post : A -> Prop) (fuel n : nat)
           (fs : list (string * File)) (o : outcome A) : Prop :=
  match o with
  | Returns v w' =>
      post v /\ (List.length (stdin w') < n)%nat /\ files w' = fs
  | Raises e w' => e = EOFError
  | Diverges => (fuel <= n)%nat
  end.

Definition prompt_outcome {A} (post : A -> Prop) (fuel : nat) (w : World)
           (o : outcome A) : Prop :=
  outcome_within post fuel (List.length (stdin w)) (files w) o.

(** The world after the strings [out] were written to the terminal. *)
Definition wrote (out : list string) (w : World) : World :=
  {| stdin := stdin w; stdout := (stdout w ++ out)%list; files := files w |}.

(** The two diagnostic lines of [print_summary], as they are printed. *)
Definition failed_fa (totals : Totals) : string :=
  "Failed FA (achieved " ++ Fmt.fixed2 (total_formative totals)
  ++ " / need " ++ Fmt.fixed2 (fa_threshold totals) ++ ")" ++ Str.nl.

Definition failed_sa (totals : Totals) : string :=
  "Failed SA (achieved " ++ Fmt.fixed2 (total_summative totals)
  ++ " / need " ++ Fmt.fixed2 (sa_threshold totals) ++ ")" ++ Str.nl.

(** What the last statement of [print_summary] prints. *)
Definition failure_lines (totals : Totals) : list string :=
  if negb (passes totals) then
    ((if Qlt_bool 0 (total_fa_weight totals)
         && Qlt_bool (total_formative totals) (fa_threshold totals)
      then [failed_fa totals] else [])
     ++ (if Qlt_bool 0 (total_sa_weight totals)
            && Qlt_bool (total_summative totals) (sa_threshold totals)
         then [failed_sa totals] else []))%list
  else [].

(** A fuelled computation is stable when fuel only decides whether it runs
    to its end: a run that does not lack fuel is not changed by more fuel. *)
Definition stable {A} (f : nat -> M A) : Prop :=
  forall fuel fuel' w,
    (fuel <= fuel')%nat -> f fuel w <> Diverges -> f fuel' w = f fuel w.

(** The four lines typed for one record, each accepted at the first try. *)
Record Entry : Type := mkEntry {
  name_line : string;
  category_line : string;
  grade_line : string;
  weight_line : string
}.

(** The four lines of [e] are lines of ASCII characters. *)
Definition ascii_entry (e : Entry) : bool :=
  ascii_line (name_line e) && ascii_line (category_line e)
  && ascii_line (grade_line e) && ascii_line (weight_line e).

(** The validator accepts the lines of [e] and builds the record [a]. *)
Definition accepts (float : string -> option Q) (e : Entry) (a : Assignment) : Prop :=
  Str.truthy (Str.strip (name_line e)) = true
  /\ name a = Str.strip (name_line e)
  /\ category a = Str.upper (Str.strip (category_line e))
  /\ (category a = "FA" \/ category a = "SA")
  /\ float (Str.strip (grade_line e)) = Some (grade a)
  /\ 0 <= grade a <= 100
  /\ float (Str.strip (weight_line e)) = Some (weight a)
  /\ 0 < weight a.

(** The lines of a whole session: [y] after every record but the last,
    [n] after the last. *)
Fixpoint script (entries : list Entry) : list string :=
  match entries with
  | [] => []
  | e :: rest =>
      [name_line e; category_line e; grade_line e; weight_line e]
      ++ (match rest with [] => ["n"] | _ :: _ => "y" :: script rest end)
  end%list.

(** The record is formative or summative. *)
Definition known_category (a : Assignment) : bool :=
  in_category "FA" a || in_category "SA" a.

(** [a'] is [a] with a grade that is at least as high. *)
Definition improved (a a' : Assignment) : Prop :=
  category a' = category a /\ weight a' == weight a /\ grade a <= grade a'.

(** The shape that the five prompting loops share: show the prompt, read a
    line, return the value that [check] accepts or print the message that it
    gives and start again. *)
Fixpoint prompt_loop {A} (prompt_text : string) (check : string -> A + string)
         (fuel : nat) : M A :=
  match fuel with
  | O => diverge
  | S fuel =>
      line <- input prompt_text ;;
      match check line with
      | inl value => ret value
      | inr message => print message ;; prompt_loop prompt_text check fuel
      end
  end.

(** What the terminal shows while a prompting loop rejects the lines
    [rejected] and asks once more. *)
Definition retries (prompt_text message : string) (rejected : list string)
  : list string :=
  (flat_map (fun _ => [prompt_text; (message ++ Str.nl)%string]) rejected
   ++ [prompt_text])%list.

(** The only exception is [EOFError], raised once the input is exhausted
    and with the files [fs] as they were. *)
Definition raises_at_end {A} (fs : list (string * File)) (o : outcome A) : Prop :=
  match o with
  | Raises e w' => e = EOFError /\ stdin w' = [] /\ files w' = fs
  | _ => True
  end.

(** The rows that [write_csv] writes for a list of records. *)
Definition csv_rows (assignments : list Assignment) : File :=
  ("Assignment,Category,Grade,Weight" ++ Csv.lineterminator)
  :: map (fun a =>
            Csv.field (name a) ++ ","
            ++ Csv.field (category a) ++ ","
            ++ Fmt.fixed2 (grade a) ++ ","
            ++ Fmt.fixed2 (weight a)
            ++ Csv.lineterminator)
         assignments.

(** How the line of the record [a] starts in the report, under the number
    [idx]. *)
Definition assignment_heading (idx : nat) (a : Assignment) : string :=
  Str.of_nat idx ++ ". " ++ name a ++ " (" ++ category a ++ "): ".

(** The line that [print_summary] prints for the record [a] under the
    number [idx]. *)
Definition assignment_line (idx : nat) (a : Assignment) : string :=
  Str.of_nat idx ++ ". " ++ name a ++ " (" ++ category a ++ "): "
  ++ Fmt.fixed2 (grade a) ++ "% - Weight: " ++ Fmt.fixed2 (weight a)
  ++ " - Weighted: " ++ Fmt.fixed2 (weighted_grade a) ++ Str.nl.

(** * Properties *)

(** ** Arithmetic helpers *)

Lemma Qlt_bool_iff (x y : Q) : Qlt_bool x y = true <-> x < y.
Proof.
  unfold Qlt_bool. rewrite negb_true_iff.
  split; intro H.
  - apply Qnot_le_lt. intro Hle. apply Qle_bool_iff in Hle. congruence.
  - destruct (Qle_bool y x) eqn:E; [|reflexivity].
    apply Qle_bool_iff in E. exfalso. apply (Qlt_not_le _ _ H E).
Qed.

Lemma Qlt_bool_false_iff (x y : Q) : Qlt_bool x y = false <-> y <= x.
Proof.
  unfold Qlt_bool. rewrite negb_false_iff. apply Qle_bool_iff.
Qed.

Lemma Qle_bool_false_iff (x y : Q) : Qle_bool x y = false <-> y < x.
Proof.
  rewrite <- Qlt_bool_iff. unfold Qlt_bool.
  destruct (Qle_bool x y); simpl; intuition congruence.
Qed.

(** Numeric comparisons and record invariants on concrete values. *)
Ltac Qcmp := first [ apply Qle_bool_iff; reflexivity
                   | apply Qlt_bool_iff; reflexivity ].

Ltac valid_record_tac :=
  unfold valid_record; cbn [name category grade weight];
  split; [ vm_compute; discriminate
         | split; [ first [left; reflexivity | right; reflexivity]
                  | split; [ split; Qcmp | Qcmp ] ] ].

Lemma fold_left_Qplus_acc (xs : list Q) (a : Q) :
  fold_left Qplus xs a == a + sum xs.
Proof.
  unfold sum. revert a.
  induction xs as [|x xs IH]; intro a; simpl.
  - ring.
  - rewrite (IH (a + x)), (IH (0 + x)). ring.
Qed.

Lemma sum_nil : sum [] = 0.
Proof. reflexivity. Qed.

Lemma sum_cons (x : Q) (xs : list Q) : sum (x :: xs) == x + sum xs.
Proof.
  unfold sum at 1. simpl. rewrite fold_left_Qplus_acc. ring.
Qed.

Lemma sum_app (xs ys : list Q) : sum (xs ++ ys) == sum xs + sum ys.
Proof.
  induction xs as [|x xs IH]; simpl.
  - rewrite sum_nil. ring.
  - rewrite !sum_cons, IH. ring.
Qed.

Lemma sum_nonneg (xs : list Q) : Forall (fun x => 0 <= x) xs -> 0 <= sum xs.
Proof.
  induction 1 as [|x xs Hx _ IH].
  - rewrite sum_nil. apply Qle_refl.
  - rewrite sum_cons. lra.
Qed.

Lemma sum_pos (xs : list Q) :
  Forall (fun x => 0 < x) xs -> xs <> [] -> 0 < sum xs.
Proof.
  intros H Hne. destruct H as [|x xs Hx Hxs]; [congruence|].
  rewrite sum_cons.
  assert (0 <= sum xs).
  { apply sum_nonneg. eapply Forall_impl; [|exact Hxs].
    intros y Hy; cbv beta in *; lra. }
  cbv beta in Hx. lra.
Qed.

(** The total weight of a category whose records all have a positive
    weight is zero when the category is absent and positive otherwise. *)
Lemma category_weight_zero_or_pos (c : string) (l : list Assignment) :
  Forall (fun a => 0 < weight a) l ->
  (filter (in_category c) l = [] /\ sum (map weight (filter (in_category c) l)) = 0)
  \/ 0 < sum (map weight (filter (in_category c) l)).
Proof.
  intro H.
  destruct (filter (in_category c) l) as [|a l'] eqn:E.
  - left. split; reflexivity.
  - right. apply sum_pos; [|simpl; congruence].
    apply Forall_map.
    rewrite <- E. apply Forall_forall. intros x Hx.
    apply filter_In in Hx. destruct Hx as [Hx _].
    rewrite Forall_forall in H. auto.
Qed.

(** Two categories that partition the list partition its sum. *)
Lemma sum_partition (f : Assignment -> Q) (l : list Assignment) :
  (forall a, In a l -> category a = "FA" \/ category a = "SA") ->
  sum (map f (filter (in_category "FA") l))
  + sum (map f (filter (in_category "SA") l))
  == sum (map f l).
Proof.
  induction l as [|a l IH]; intro H.
  - simpl. rewrite sum_nil. ring.
  - assert (IH' := IH (fun b Hb => H b (or_intror Hb))).
    assert (Hc : forall c, in_category c a = String.eqb (category a) c)
      by reflexivity.
    simpl. rewrite !Hc.
    destruct (H a (or_introl eq_refl)) as [E|E]; rewrite E; simpl;
      rewrite !sum_cons, <- IH'; ring.
Qed.

(** ** The derived weighted grade *)

(** C3. For a grade in [0, 100] and a positive weight, both finite and read
    as exact numbers, the weighted grade is [(grade / 100) * weight] and lies
    between 0 and the weight. *)
Theorem weighted_grade_range (a : Assignment) :
  0 <= grade a <= 100 ->
  0 < weight a ->
  weighted_grade a == (grade a / 100) * weight a
  /\ 0 <= weighted_grade a <= weight a.
Proof.
  intros [Hlo Hhi] Hw. unfold weighted_grade.
  split; [reflexivity|].
  assert (Hg0 : 0 <= grade a / 100).
  { apply Qle_shift_div_l; lra. }
  assert (Hg1 : grade a / 100 <= 1).
  { apply Qle_shift_div_r; lra. }
  split; nra.
Qed.

Lemma weighted_grade_range_witness :
  let a := mkAssignment "Quiz1" "FA" 80 20 in
  weighted_grade a == (80 / 100) * 20 /\ 0 <= weighted_grade a <= 20.
Proof.
  apply (weighted_grade_range (mkAssignment "Quiz1" "FA" 80 20)); simpl.
  - split; [apply Qle_bool_iff | apply Qle_bool_iff]; reflexivity.
  - apply Qlt_bool_iff; reflexivity.
Defined.

(** The weight [inf] is positive, and [prompt_weight] returns it when [float]
    reads the line so; with the grade 0 the weighted grade is NaN, which is
    neither at least 0 nor at most the weight. *)
Lemma weighted_grade_inf_weight :
  let a := IEEE.mkAssignment "Quiz1" "FA" IEEE.zero IEEE.inf in
  IEEE.leb IEEE.zero (IEEE.grade a) = true
  /\ IEEE.leb (IEEE.grade a) (IEEE.of_Z 100) = true
  /\ IEEE.ltb IEEE.zero (IEEE.weight a) = true
  /\ IEEE.prompt_weight
       (fun raw => if String.eqb raw "inf" then Some IEEE.inf else None)
       1 (session ["inf"] [])
     = Returns (IEEE.weight a)
         {| stdin := []; stdout := ["Weight (> 0): "]; files := [] |}
  /\ IEEE.weighted_grade a = IEEE.nan
  /\ IEEE.leb IEEE.zero (IEEE.weighted_grade a) = false
  /\ IEEE.leb (IEEE.weighted_grade a) (IEEE.weight a) = false.
Proof.
  cbv zeta. repeat split; vm_compute; reflexivity.
Qed.

(** ** The percentage helper *)

(** C4. [format_percentage] never divides by zero: it returns 0 when the
    total weight is not positive, in particular for a total weight of 0, and
    [(value / total_weight) * 100] when the total weight is positive. *)
Theorem format_percentage_total (value total_weight : Q) :
  format_percentage value total_weight <> None
  /\ format_percentage value 0 = Some 0
  /\ (total_weight <= 0 -> format_percentage value total_weight = Some 0)
  /\ (0 < total_weight ->
      format_percentage value total_weight
      = Some ((value / total_weight) * 100)).
Proof.
  unfold format_percentage, truediv.
  destruct (Qle_bool total_weight 0) eqn:Hle.
  - apply Qle_bool_iff in Hle.
    repeat split; try reflexivity; try discriminate.
    intro Hpos. exfalso. apply (Qlt_not_le _ _ Hpos Hle).
  - apply Qle_bool_false_iff in Hle.
    destruct (Qeq_bool total_weight 0) eqn:Hz.
    + apply Qeq_bool_iff in Hz. rewrite Hz in Hle.
      exfalso. apply (Qlt_irrefl 0 Hle).
    + repeat split; try reflexivity; try discriminate.
      intro Hnp. exfalso. apply (Qlt_not_le _ _ Hle Hnp).
Qed.

Lemma format_percentage_total_witness :
  format_percentage 16 20 = Some ((16 / 20) * 100)
  /\ format_percentage 16 (-3) = Some 0.
Proof.
  split.
  - apply (format_percentage_total 16 20). apply Qlt_bool_iff. reflexivity.
  - apply (format_percentage_total 16 (-3)). apply Qle_bool_iff. reflexivity.
Defined.

(** ** The aggregator *)

(** C5. The GPA is [(final_grade / 100) * 5], that is [final_grade * 0.05],
    and a final grade of 100 gives a GPA of 5. *)
Theorem gpa_of_final_grade (l : list Assignment) :
  gpa (calculate_totals l) == (final_grade (calculate_totals l) / 100) * 5
  /\ gpa (calculate_totals l) == final_grade (calculate_totals l) * (5 # 100)
  /\ (final_grade (calculate_totals l) == 100 -> gpa (calculate_totals l) == 5).
Proof.
  cbn [calculate_totals gpa final_grade].
  set (fg := _ + _).
  split; [|split].
  - reflexivity.
  - field.
  - intro H. rewrite H. reflexivity.
Qed.

Lemma gpa_of_final_grade_witness :
  gpa (calculate_totals [mkAssignment "Essay" "FA" 100 40;
                         mkAssignment "Exam" "SA" 100 60]) == 5.
Proof.
  apply (gpa_of_final_grade [mkAssignment "Essay" "FA" 100 40;
                             mkAssignment "Exam" "SA" 100 60]).
  reflexivity.
Defined.

(** C10. The final grade is the total of the FA records plus the total of
    the SA records, each a sum of weighted grades in entry order.  When every
    record is formative or summative this is, in exact arithmetic, the sum of
    the weighted grades of all records.  Nothing caps it at 100: two records
    with grade 100 and weight 100 give a final grade of 200 and a GPA of 10,
    on exact numbers and on doubles alike. *)
Theorem final_grade_is_uncapped_sum :
  (forall l : list Assignment,
      (forall a, In a l -> category a = "FA" \/ category a = "SA") ->
      final_grade (calculate_totals l) == sum (map weighted_grade l))
  /\ (forall l : list IEEE.Assignment,
         IEEE.final_grade (IEEE.calculate_totals l)
         = IEEE.add
             (IEEE.sum (map IEEE.weighted_grade
                            (filter (fun a => String.eqb (IEEE.category a) "FA") l)))
             (IEEE.sum (map IEEE.weighted_grade
                            (filter (fun a => String.eqb (IEEE.category a) "SA") l))))
  /\ (let l := [mkAssignment "Project" "FA" 100 100;
                mkAssignment "Exam" "SA" 100 100] in
      Forall valid_record l
      /\ 100 < final_grade (calculate_totals l)
      /\ 5 < gpa (calculate_totals l))
  /\ (let l := [IEEE.mkAssignment "Project" "FA" (IEEE.of_Z 100) (IEEE.of_Z 100);
                IEEE.mkAssignment "Exam" "SA" (IEEE.of_Z 100) (IEEE.of_Z 100)] in
      IEEE.final_grade (IEEE.calculate_totals l) = IEEE.of_Z 200
      /\ IEEE.gpa (IEEE.calculate_totals l) = IEEE.of_Z 10).
Proof.
  split; [|split; [|split]].
  - intros l H. cbn [calculate_totals final_grade].
    apply sum_partition. exact H.
  - intro l. reflexivity.
  - cbv zeta. split; [|split].
    + repeat (apply Forall_cons; [valid_record_tac|]). apply Forall_nil.
    + apply Qlt_bool_iff. reflexivity.
    + apply Qlt_bool_iff. reflexivity.
  - cbv zeta. split; vm_compute; reflexivity.
Qed.

Lemma final_grade_is_uncapped_sum_witness :
  let l := [mkAssignment "Quiz1" "FA" 80 20; mkAssignment "Final" "SA" 60 80] in
  final_grade (calculate_totals l) == sum (map weighted_grade l).
Proof.
  apply (proj1 final_grade_is_uncapped_sum).
  simpl. intros a [<-|[<-|[]]]; simpl; auto.
Defined.

(** On doubles the final grade need not be the sum over all records: for
    three records FA 67/15, SA 63/36, FA 44/15 the code adds the two FA
    records first and gets 39.33, while the sum over the records in entry
    order is the next double, 39.330000000000005. *)
Lemma final_grade_differs_from_sum :
  let l := [IEEE.mkAssignment "Quiz1" "FA" (IEEE.of_Z 67) (IEEE.of_Z 15);
            IEEE.mkAssignment "Exam" "SA" (IEEE.of_Z 63) (IEEE.of_Z 36);
            IEEE.mkAssignment "Quiz2" "FA" (IEEE.of_Z 44) (IEEE.of_Z 15)] in
  forallb (fun a => String.eqb (IEEE.category a) "FA"
                    || String.eqb (IEEE.category a) "SA") l = true
  /\ IEEE.final_grade (IEEE.calculate_totals l)
     = S754_finite false 5535205417015050 (-47)
  /\ IEEE.sum (map IEEE.weighted_grade l)
     = S754_finite false 5535205417015051 (-47)
  /\ IEEE.eqb (IEEE.final_grade (IEEE.calculate_totals l))
              (IEEE.sum (map IEEE.weighted_grade l)) = false.
Proof.
  cbv zeta. repeat split; vm_compute; reflexivity.
Qed.

(** The verdict of one category as the code computes it agrees with the
    rule of the specification whenever the total weight is not negative. *)
Lemma category_verdict (total_weight achieved : Q) :
  0 <= total_weight ->
  (if Qlt_bool 0 total_weight
   then Qle_bool (total_weight * (1 # 2)) achieved else true) = true
  <-> category_passes total_weight achieved.
Proof.
  intro Hnn. unfold category_passes.
  destruct (Qlt_bool 0 total_weight) eqn:Hpos.
  - apply Qlt_bool_iff in Hpos. rewrite Qle_bool_iff.
    split; [intro H; right; exact H|].
    intros [Hz|H]; [|exact H].
    rewrite Hz in Hpos. exfalso. apply (Qlt_irrefl 0 Hpos).
  - apply Qlt_bool_false_iff in Hpos.
    split; [intros _; left|reflexivity].
    apply Qle_antisym; assumption.
Qed.

Lemma category_weight_nonneg (c : string) (l : list Assignment) :
  Forall (fun a => 0 < weight a) l ->
  0 <= sum (map weight (filter (in_category c) l)).
Proof.
  intro H.
  destruct (category_weight_zero_or_pos c l H) as [[_ E]|Hpos].
  - rewrite E. apply Qle_refl.
  - apply Qlt_le_weak. exact Hpos.
Qed.

(** C1. On records with positive weights, the four category fields of the
    result are the total weight and the total weighted score of the FA
    records and of the SA records of the sequence, and the overall verdict is
    true exactly when both categories pass, a category passing when its total
    weight is 0 or its total weighted score is at least half its total
    weight.  The bound is inclusive: with a total weight of 100 in one
    category and the other category absent, the verdict is true exactly when
    the achieved total is at least 50. *)
Theorem passes_iff_categories_pass :
  (forall l : list Assignment,
      Forall (fun a => 0 < weight a) l ->
      (total_fa_weight (calculate_totals l) = category_weight "FA" l
       /\ total_formative (calculate_totals l) = category_score "FA" l
       /\ total_sa_weight (calculate_totals l) = category_weight "SA" l
       /\ total_summative (calculate_totals l) = category_score "SA" l)
      /\ (passes (calculate_totals l) = true
          <-> category_passes (category_weight "FA" l) (category_score "FA" l)
              /\ category_passes (category_weight "SA" l) (category_score "SA" l)))
  /\ (forall l : list Assignment,
         category_weight "FA" l == 100 ->
         category_weight "SA" l == 0 ->
         passes (calculate_totals l) = true <-> 50 <= category_score "FA" l)
  /\ (forall l : list Assignment,
         category_weight "SA" l == 100 ->
         category_weight "FA" l == 0 ->
         passes (calculate_totals l) = true <-> 50 <= category_score "SA" l).
Proof.
  split; [|split].
  - intros l H. split; [repeat split|].
    change (category_weight "FA" l) with (total_fa_weight (calculate_totals l)).
    change (category_weight "SA" l) with (total_sa_weight (calculate_totals l)).
    change (category_score "FA" l) with (total_formative (calculate_totals l)).
    change (category_score "SA" l) with (total_summative (calculate_totals l)).
    cbn [calculate_totals passes total_fa_weight total_formative
         total_sa_weight total_summative].
    rewrite andb_true_iff.
    rewrite (category_verdict _ _ (category_weight_nonneg "FA" l H)).
    rewrite (category_verdict _ _ (category_weight_nonneg "SA" l H)).
    reflexivity.
  - intros l.
    change (category_weight "FA" l) with (total_fa_weight (calculate_totals l)).
    change (category_weight "SA" l) with (total_sa_weight (calculate_totals l)).
    change (category_score "FA" l) with (total_formative (calculate_totals l)).
    cbn [calculate_totals passes total_fa_weight total_formative
         total_sa_weight total_summative].
    intros Hfa Hsa.
    assert (Ha : Qlt_bool 0 (sum (map weight (filter (in_category "FA") l))) = true)
      by (apply Qlt_bool_iff; lra).
    assert (Hb : Qlt_bool 0 (sum (map weight (filter (in_category "SA") l))) = false)
      by (apply Qlt_bool_false_iff; lra).
    rewrite Ha, Hb, andb_true_r, Qle_bool_iff.
    split; intro Hle; lra.
  - intros l.
    change (category_weight "FA" l) with (total_fa_weight (calculate_totals l)).
    change (category_weight "SA" l) with (total_sa_weight (calculate_totals l)).
    change (category_score "SA" l) with (total_summative (calculate_totals l)).
    cbn [calculate_totals passes total_fa_weight total_formative
         total_sa_weight total_summative].
    intros Hsa Hfa.
    assert (Ha : Qlt_bool 0 (sum (map weight (filter (in_category "SA") l))) = true)
      by (apply Qlt_bool_iff; lra).
    assert (Hb : Qlt_bool 0 (sum (map weight (filter (in_category "FA") l))) = false)
      by (apply Qlt_bool_false_iff; lra).
    rewrite Ha, Hb, andb_true_l, Qle_bool_iff.
    split; intro Hle; lra.
Qed.

Lemma passes_iff_categories_pass_witness :
  passes (calculate_totals [mkAssignment "Quiz1" "FA" 80 20;
                            mkAssignment "Final" "SA" 60 80]) = true
  /\ (passes (calculate_totals [mkAssignment "Project" "FA" 100 50;
                                mkAssignment "Exam" "SA" 40 50]) = true -> False)
  /\ passes (calculate_totals [mkAssignment "Midterm" "FA" 50 100]) = true
  /\ (passes (calculate_totals [mkAssignment "Midterm" "SA" (4999 # 100) 100])
      = true -> False).
Proof.
  split; [|split; [|split]].
  - apply (proj1 passes_iff_categories_pass).
    + repeat (apply Forall_cons; [Qcmp|]). apply Forall_nil.
    + split; right; Qcmp.
  - intro Hp.
    apply (proj1 passes_iff_categories_pass) in Hp;
      [|repeat (apply Forall_cons; [Qcmp|]); apply Forall_nil].
    destruct Hp as [_ [Hz|Hhalf]].
    + apply Qeq_bool_iff in Hz. discriminate Hz.
    + apply Qle_bool_iff in Hhalf. discriminate Hhalf.
  - apply (proj1 (proj2 passes_iff_categories_pass));
      [reflexivity | reflexivity | Qcmp].
  - intro Hp.
    apply (proj2 (proj2 passes_iff_categories_pass)) in Hp;
      [|reflexivity|reflexivity].
    apply Qle_bool_iff in Hp. discriminate Hp.
Defined.

(** ** Strings *)

Lemma lstrip_chars_head (cs : list ascii) (c : ascii) (t : list ascii) :
  Str.lstrip_chars cs = c :: t -> Str.is_space c = false.
Proof.
  induction cs as [|x cs IH]; simpl; [discriminate|].
  destruct (Str.is_space x) eqn:E; [exact IH|].
  intros [= <- _]. exact E.
Qed.

Lemma lstrip_chars_fix (c : ascii) (t : list ascii) :
  Str.is_space c = false -> Str.lstrip_chars (c :: t) = c :: t.
Proof. intro E. simpl. rewrite E. reflexivity. Qed.

Lemma lstrip_chars_suffix (cs : list ascii) :
  exists sp, cs = (sp ++ Str.lstrip_chars cs)%list.
Proof.
  induction cs as [|x cs [sp IH]]; simpl.
  - exists []. reflexivity.
  - destruct (Str.is_space x).
    + exists (x :: sp). simpl. rewrite <- IH. reflexivity.
    + exists []. reflexivity.
Qed.

Lemma strip_chars_idempotent (cs : list ascii) :
  Str.strip_chars (Str.strip_chars cs) = Str.strip_chars cs.
Proof.
  unfold Str.strip_chars at 2 3.
  destruct (Str.lstrip_chars cs) as [|a A] eqn:EA; [reflexivity|].
  pose proof (lstrip_chars_head _ _ _ EA) as Ha.
  destruct (lstrip_chars_suffix (rev (a :: A))) as [sp Hsp].
  destruct (Str.lstrip_chars (rev (a :: A))) as [|b B] eqn:EB; [reflexivity|].
  pose proof (lstrip_chars_head _ _ _ EB) as Hb.
  assert (HA : a :: A = (rev (b :: B) ++ rev sp)%list).
  { rewrite <- rev_app_distr, <- Hsp, rev_involutive. reflexivity. }
  unfold Str.strip_chars.
  destruct (rev (b :: B)) as [|x t] eqn:ER.
  { apply (f_equal (@List.length ascii)) in ER.
    rewrite length_rev in ER. discriminate ER. }
  simpl in HA. injection HA as <- _.
  rewrite (lstrip_chars_fix _ _ Ha), <- ER, rev_involutive.
  rewrite (lstrip_chars_fix _ _ Hb). reflexivity.
Qed.

Lemma strip_idempotent (s : string) : Str.strip (Str.strip s) = Str.strip s.
Proof.
  unfold Str.strip.
  rewrite list_ascii_of_string_of_list_ascii, strip_chars_idempotent.
  reflexivity.
Qed.

Lemma truthy_iff (s : string) : Str.truthy s = true <-> s <> EmptyString.
Proof.
  destruct s; simpl; split; congruence.
Qed.

(** ** The monad of effects *)

Lemma bind_print {B} (s : string) (k : unit -> M B) (w : World) :
  bind (print s) k w = k tt (emit (s ++ Str.nl) w).
Proof. reflexivity. Qed.

Lemma bind_input {B} (p : string) (k : string -> M B) (w : World) :
  bind (input p) k w
  = match stdin w with
    | [] => Raises EOFError (emit p w)
    | line :: rest =>
        k line {| stdin := rest; stdout := stdout (emit p w); files := files w |}
    end.
Proof.
  unfold input, write_stdout, bind. cbn [stdin emit files].
  destruct (stdin w); reflexivity.
Qed.

Lemma bind_agree {A B} (c : M A) (k1 k2 : A -> M B) (w : World) :
  (forall a w', c w = Returns a w' -> k1 a w' = k2 a w') ->
  bind c k1 w = bind c k2 w.
Proof.
  intro H. unfold bind. destruct (c w); auto.
Qed.

Lemma outcome_within_mono {A} (post : A -> Prop) (fuel n n' : nat)
      (fs : list (string * File)) (o : outcome A) :
  (n <= n')%nat -> outcome_within post fuel n fs o ->
  outcome_within post fuel n' fs o.
Proof.
  intro Hn. destruct o; simpl; intuition lia.
Qed.

Lemma bind_within {A B} (postA : A -> Prop) (postB : B -> Prop)
      (fuel n : nat) (fs : list (string * File))
      (c : M A) (k : A -> M B) (w : World) :
  outcome_within postA fuel n fs (c w) ->
  (forall a w', postA a -> (List.length (stdin w') < n)%nat -> files w' = fs ->
                outcome_within postB fuel n fs (k a w')) ->
  outcome_within postB fuel n fs (bind c k w).
Proof.
  intros Hc Hk. unfold bind.
  destruct (c w) as [a w'| |]; simpl in *; intuition.
Qed.

(** ** The record validator *)

(** One more round of a prompting loop after a rejected line. *)
Ltac again IH :=
  rewrite bind_print;
  match goal with
  | |- prompt_outcome _ _ _ (?f ?w') =>
      generalize (IH w'); destruct (f w');
      unfold prompt_outcome, outcome_within;
      repeat match goal with H : stdin _ = _ |- _ => rewrite H; clear H end;
      cbn [stdin emit files List.length];
      intuition (auto; lia)
  end.

(** The accepted line of a prompting loop. *)
Ltac accepted E :=
  unfold prompt_outcome, outcome_within, ret; rewrite E;
  cbn [stdin emit files List.length]; auto.

Lemma prompt_non_empty_outcome (fuel : nat) (prompt_text : string) (w : World) :
  prompt_outcome (fun v => v <> EmptyString /\ Str.strip v = v) fuel w
                 (prompt_non_empty fuel prompt_text w).
Proof.
  revert w. induction fuel as [|fuel IH]; intro w; cbn [prompt_non_empty].
  - cbn. lia.
  - rewrite bind_input. destruct (stdin w) as [|line rest] eqn:E; [reflexivity|].
    destruct (Str.truthy (Str.strip line)) eqn:C; [|again IH].
    apply truthy_iff in C. pose proof (strip_idempotent line).
    accepted E.
Qed.

Lemma prompt_category_outcome (fuel : nat) (w : World) :
  prompt_outcome (fun c => c = "FA" \/ c = "SA") fuel w (prompt_category fuel w).
Proof.
  revert w. induction fuel as [|fuel IH]; intro w; cbn [prompt_category].
  - cbn. lia.
  - rewrite bind_input. destruct (stdin w) as [|line rest] eqn:E; [reflexivity|].
    destruct (String.eqb _ "FA" || String.eqb _ "SA") eqn:C; [|again IH].
    apply orb_true_iff in C. rewrite !String.eqb_eq in C.
    accepted E.
Qed.

Lemma prompt_continue_outcome (fuel : nat) (w : World) :
  prompt_outcome (fun _ => True) fuel w (prompt_continue fuel w).
Proof.
  revert w. induction fuel as [|fuel IH]; intro w; cbn [prompt_continue].
  - cbn. lia.
  - rewrite bind_input. destruct (stdin w) as [|line rest] eqn:E; [reflexivity|].
    destruct (String.eqb _ "y" || String.eqb _ "yes"); [accepted E|].
    destruct (String.eqb _ "n" || String.eqb _ "no"); [accepted E|again IH].
Qed.

Section ValidatorFacts.

Variable float : string -> option Q.

Lemma prompt_grade_outcome (fuel : nat) (w : World) :
  prompt_outcome (fun g => 0 <= g <= 100) fuel w (prompt_grade float fuel w).
Proof.
  revert w. induction fuel as [|fuel IH]; intro w; cbn [prompt_grade].
  - cbn. lia.
  - rewrite bind_input. destruct (stdin w) as [|line rest] eqn:E; [reflexivity|].
    destruct (float (Str.strip line)) as [g|]; [|again IH].
    destruct (Qle_bool 0 g && Qle_bool g 100) eqn:C; [|again IH].
    apply andb_true_iff in C. rewrite !Qle_bool_iff in C.
    accepted E.
Qed.

Lemma prompt_weight_outcome (fuel : nat) (w : World) :
  prompt_outcome (fun x => 0 < x) fuel w (prompt_weight float fuel w).
Proof.
  revert w. induction fuel as [|fuel IH]; intro w; cbn [prompt_weight].
  - cbn. lia.
  - rewrite bind_input. destruct (stdin w) as [|line rest] eqn:E; [reflexivity|].
    destruct (float (Str.strip line)) as [x|]; [|again IH].
    destruct (Qlt_bool 0 x) eqn:C; [|again IH].
    apply Qlt_bool_iff in C.
    accepted E.
Qed.

(** A run of the collecting loop returns the list it started from followed
    by at least one record, each satisfying the invariants. *)
Lemma collect_loop_outcome (fuel : nat) (assignments : list Assignment) (w : World) :
  prompt_outcome
    (fun l => exists added,
         l = (assignments ++ added)%list /\ added <> []
         /\ Forall valid_record added)
    fuel w (collect_loop float fuel assignments w).
Proof.
  revert assignments w.
  induction fuel as [|fuel IH]; intros assignments w; [cbn; lia|].
  cbn [collect_loop]. rewrite bind_print.
  unfold prompt_outcome.
  change (files w) with (files (emit ((Str.nl ++ "Enter assignment details:") ++ Str.nl) w)).
  change (stdin w) with (stdin (emit ((Str.nl ++ "Enter assignment details:") ++ Str.nl) w)).
  set (w0 := emit _ w). clearbody w0. clear w.
  eapply bind_within; [apply prompt_non_empty_outcome|].
  intros nm w1 [Hn1 Hn2] Hl1 Hf1. cbv beta.
  eapply bind_within.
  { eapply outcome_within_mono; [|rewrite <- Hf1; apply prompt_category_outcome]. lia. }
  intros cat w2 Hc Hl2 Hf2. cbv beta.
  eapply bind_within.
  { eapply outcome_within_mono; [|rewrite <- Hf2; apply prompt_grade_outcome]. lia. }
  intros g w3 Hg Hl3 Hf3. cbv beta.
  eapply bind_within.
  { eapply outcome_within_mono; [|rewrite <- Hf3; apply prompt_weight_outcome]. lia. }
  intros x w4 Hw Hl4 Hf4. cbv beta zeta.
  eapply bind_within.
  { eapply outcome_within_mono; [|rewrite <- Hf4; apply prompt_continue_outcome]. lia. }
  intros continue w5 _ Hl5 Hf5. cbv beta.
  assert (Hv : valid_record (mkAssignment nm cat g x)).
  { unfold valid_record. cbn [name category grade weight].
    rewrite Hn2. auto. }
  destruct continue; cbn [negb].
  - generalize (IH (assignments ++ [mkAssignment nm cat g x])%list w5).
    unfold prompt_outcome.
    destruct (collect_loop float fuel _ w5) as [l w6| |]; cbn.
    + intros [[added [-> [_ Hadd]]] [Hl6 Hf6]].
      split; [|split; [lia|congruence]].
      exists (mkAssignment nm cat g x :: added).
      rewrite <- app_assoc. split; [reflexivity|]. split; [discriminate|].
      constructor; assumption.
    + auto.
    + lia.
  - cbn. split; [|split; [lia|congruence]].
    exists [mkAssignment nm cat g x].
    split; [reflexivity|]. split; [discriminate|].
    constructor; [assumption|constructor].
Qed.

End ValidatorFacts.

(** C2. Every record that [collect_assignments] returns satisfies the
    invariants of the data model: a name that is not empty after trimming, a
    category that is FA or SA, a grade in [0, 100] and a positive weight.
    [prompt_grade] and [prompt_weight] only return values in these ranges,
    and the loop only appends: the records already collected come back
    unchanged, in order, in front of the new ones. *)
Theorem collected_records_valid (float : string -> option Q) (fuel : nat) (w : World) :
  (forall g w', prompt_grade float fuel w = Returns g w' -> 0 <= g <= 100)
  /\ (forall x w', prompt_weight float fuel w = Returns x w' -> 0 < x)
  /\ (forall l w',
         collect_assignments float fuel w = Returns l w' -> Forall valid_record l)
  /\ (forall collected l w',
         collect_loop float fuel collected w = Returns l w' ->
         exists added, l = (collected ++ added)%list /\ Forall valid_record added).
Proof.
  split; [|split; [|split]].
  - intros g w' H. pose proof (prompt_grade_outcome float fuel w) as P.
    rewrite H in P. apply P.
  - intros x w' H. pose proof (prompt_weight_outcome float fuel w) as P.
    rewrite H in P. apply P.
  - intros l w' H. pose proof (collect_loop_outcome float fuel [] w) as P.
    unfold collect_assignments in H. rewrite H in P.
    destruct P as [[added [-> [_ Hv]]] _]. exact Hv.
  - intros collected l w' H.
    pose proof (collect_loop_outcome float fuel collected w) as P.
    rewrite H in P.
    destruct P as [[added [-> [_ Hv]]] _]. exists added. auto.
Qed.

Lemma collected_records_valid_witness :
  Forall valid_record [mkAssignment "Quiz1" "FA" 80 20;
                       mkAssignment "Final" "SA" 60 80].
Proof.
  eapply (proj1 (proj2 (proj2
            (collected_records_valid Literal.float 14
               (session ["  Quiz1 "; "fa"; "abc"; "80"; "-5"; "20"; "maybe"; "y";
                         ""; "Final"; "X"; "SA"; "60"; "80"; "n"] []))))).
  vm_compute. reflexivity.
Defined.

(** A complete session: two records are typed, with some rejected lines in
    between, and [main] runs to its end. *)
Example main_runs :
  exists w',
    main Literal.float 14
         (session ["  Quiz1 "; "fa"; "abc"; "80"; "-5"; "20"; "maybe"; "y";
                   ""; "Final"; "X"; "SA"; "60"; "80"; "n"] [])
    = Returns tt w'
    /\ stdin w' = []
    /\ lookup "grades.csv" w'
       = Some ["Assignment,Category,Grade,Weight" ++ Csv.lineterminator;
               "Quiz1,FA,80.00,20.00" ++ Csv.lineterminator;
               "Final,SA,60.00,80.00" ++ Csv.lineterminator].
Proof.
  eexists. split; [vm_compute; reflexivity|].
  split; reflexivity.
Qed.

(** ** The session *)

(** C7. [main] hands the collected list to [main_body], and on an empty list
    [main_body] only prints the informational message: the terminal input
    and the files are left as they were, so no summary is printed and no file
    is written. *)
Theorem main_body_empty (w : World) :
  main_body [] w
  = Returns tt
      {| stdin := stdin w;
         stdout :=
           (stdout w
            ++ [("No assignments entered. Exiting without generating summary."
                 ++ Str.nl)%string])%list;
         files := files w |}
  /\ (forall float fuel,
         main float fuel = (assignments <- collect_assignments float fuel ;;
                            main_body assignments)).
Proof. split; reflexivity. Qed.

(** ** Number formatting *)

Lemma append_assoc (a b c : string) : ((a ++ b) ++ c = a ++ (b ++ c))%string.
Proof.
  induction a as [|x a IH]; simpl; [reflexivity|]. rewrite IH. reflexivity.
Qed.

Lemma all_digits_uint (d : Decimal.uint) :
  Str.all_digits (NilEmpty.string_of_uint d) = true.
Proof.
  induction d; simpl; auto.
Qed.

Lemma of_uint_digits (d : Decimal.uint) :
  Str.all_digits (NilZero.string_of_uint d) = true
  /\ NilZero.string_of_uint d <> EmptyString.
Proof.
  destruct d; simpl; split; try reflexivity; try discriminate;
    apply all_digits_uint.
Qed.

Lemma digit_is_digit (d : N) : (d < 10)%N -> Str.is_digit (Fmt.digit d) = true.
Proof.
  intro H.
  assert (E : In d [0; 1; 2; 3; 4; 5; 6; 7; 8; 9]%N).
  { simpl. lia. }
  simpl in E.
  repeat (destruct E as [<-|E]; [reflexivity|]). destruct E.
Qed.

(** The text of [{x:.2f}]: a sign or nothing, at least one digit, a point,
    and exactly two digits. *)
Lemma fixed2_shape (x : Q) :
  exists sign int d1 d2,
    Fmt.fixed2 x = (sign ++ int ++ "." ++ String d1 (String d2 EmptyString))%string
    /\ (sign = EmptyString \/ sign = "-")
    /\ int <> EmptyString
    /\ Str.all_digits int = true
    /\ Str.is_digit d1 = true
    /\ Str.is_digit d2 = true.
Proof.
  unfold Fmt.fixed2.
  set (h := Z.to_N _).
  exists (if Qlt_bool x 0 then "-" else EmptyString), (Str.of_N (h / 100)),
    (Fmt.digit (h mod 100 / 10)), (Fmt.digit ((h mod 100) mod 10)).
  assert (Hm : (h mod 100 < 100)%N) by (apply N.mod_lt; discriminate).
  split; [reflexivity|]. split; [destruct (Qlt_bool x 0); auto|].
  destruct (of_uint_digits (N.to_uint (h / 100))) as [Hd Hne].
  split; [exact Hne|]. split; [exact Hd|].
  split; apply digit_is_digit.
  - apply N.Div0.div_lt_upper_bound. lia.
  - apply N.mod_lt. discriminate.
Qed.

(** ** The persister *)

Lemma has_special_append (a b : string) :
  Csv.has_special (a ++ b) = Csv.has_special a || Csv.has_special b.
Proof.
  induction a as [|x a IH]; simpl; [reflexivity|].
  rewrite IH, orb_assoc. reflexivity.
Qed.

Lemma digit_not_special (c : ascii) :
  Str.is_digit c = true -> Csv.special c = false.
Proof.
  intro H. destruct (Csv.special c) eqn:E; [|reflexivity].
  unfold Csv.special in E.
  rewrite !orb_true_iff, !Ascii.eqb_eq in E.
  destruct E as [[[E|E]|E]|E]; subst c; discriminate H.
Qed.

Lemma digits_not_special (s : string) :
  Str.all_digits s = true -> Csv.has_special s = false.
Proof.
  induction s as [|c s IH]; simpl; [reflexivity|].
  rewrite andb_true_iff. intros [Hc Hs].
  rewrite (digit_not_special c Hc), (IH Hs). reflexivity.
Qed.

(** A formatted number is written to the file as it is, without quotes. *)
Lemma field_fixed2 (x : Q) : Csv.field (Fmt.fixed2 x) = Fmt.fixed2 x.
Proof.
  destruct (fixed2_shape x) as (sign & int & d1 & d2 & -> & Hs & _ & Hi & H1 & H2).
  unfold Csv.field.
  rewrite !has_special_append, (digits_not_special int Hi).
  cbn [Csv.has_special].
  rewrite (digit_not_special d1 H1), (digit_not_special d2 H2).
  destruct Hs as [-> | ->]; reflexivity.
Qed.

Lemma fold_left_writerow (fieldnames : list string)
      (row : Assignment -> list (string * string))
      (assignments : list Assignment) (csvfile : File) :
  fold_left (fun f a => Csv.writerow fieldnames f (row a)) assignments csvfile
  = (csvfile
     ++ map (fun a => Csv.line (map (fun key => Csv.get key (row a)) fieldnames))
            assignments)%list.
Proof.
  revert csvfile. induction assignments as [|a l IH]; intro csvfile; simpl.
  - rewrite app_nil_r. reflexivity.
  - rewrite IH. unfold Csv.writerow. rewrite <- app_assoc. reflexivity.
Qed.

Lemma fold_left_writerow_any {A} (fieldnames : list string)
      (row : A -> list (string * string)) (records : list A) (csvfile : File) :
  fold_left (fun f a => Csv.writerow fieldnames f (row a)) records csvfile
  = (csvfile
     ++ map (fun a => Csv.line (map (fun key => Csv.get key (row a)) fieldnames))
            records)%list.
Proof.
  revert csvfile. induction records as [|a l IH]; intro csvfile; simpl.
  - rewrite app_nil_r. reflexivity.
  - rewrite IH. unfold Csv.writerow. rewrite <- app_assoc. reflexivity.
Qed.

(** Rounding to the nearest integer: at most one half away, and to the even
    integer when exactly one half away. *)
Lemma round_half_even_spec (x : Q) :
  Qabs (inject_Z (Fmt.round_half_even x) - x) <= 1 # 2
  /\ (Qabs (inject_Z (Fmt.round_half_even x) - x) == 1 # 2 ->
      Z.even (Fmt.round_half_even x) = true).
Proof.
  unfold Fmt.round_half_even.
  pose proof (Qfloor_le x) as Hlo. pose proof (Qlt_floor x) as Hhi.
  rewrite inject_Z_plus in Hhi. change (inject_Z 1) with 1 in Hhi.
  destruct (Qcompare (x - inject_Z (Qfloor x)) (1 # 2)) eqn:C.
  - apply Qeq_alt in C.
    destruct (Z.even (Qfloor x)) eqn:E.
    + split; [|intros _; exact E].
      apply Qabs_Qle_condition. lra.
    + rewrite inject_Z_plus. change (inject_Z 1) with 1.
      split; [apply Qabs_Qle_condition; lra|intros _].
      rewrite Z.even_add, E. reflexivity.
  - apply Qlt_alt in C. split; [apply Qabs_Qle_condition; lra|].
    intro H. exfalso.
    assert (Hn : Qabs (inject_Z (Qfloor x) - x) < 1 # 2).
    { apply Qabs_Qlt_condition. lra. }
    rewrite H in Hn. apply (Qlt_irrefl _ Hn).
  - apply Qgt_alt in C. rewrite inject_Z_plus. change (inject_Z 1) with 1.
    split; [apply Qabs_Qle_condition; lra|].
    intro H. exfalso.
    assert (Hn : Qabs (inject_Z (Qfloor x) + 1 - x) < 1 # 2).
    { apply Qabs_Qlt_condition. lra. }
    rewrite H in Hn. apply (Qlt_irrefl _ Hn).
Qed.

(** The digits that [{x:.2f}] writes for a number that is not negative: those
    of the number of hundredths nearest to it. *)
Lemma fixed2_digits (q : Q) :
  0 <= q ->
  exists h : N,
    Qabs (inject_Z (Z.of_N h) - q * 100) <= 1 # 2
    /\ (Qabs (inject_Z (Z.of_N h) - q * 100) == 1 # 2 -> N.even h = true)
    /\ Fmt.fixed2 q
       = (Str.of_N (h / 100) ++ "."
          ++ String (Fmt.digit (h mod 100 / 10))
                    (String (Fmt.digit (h mod 10)) EmptyString))%string.
Proof.
  intro Hq. unfold Fmt.fixed2, Fmt.two_digits.
  assert (Hs : Qlt_bool q 0 = false) by (apply Qlt_bool_false_iff; exact Hq).
  rewrite Hs.
  destruct (round_half_even_spec (Qabs q * 100)) as [Hnear Htie].
  set (r := Fmt.round_half_even (Qabs q * 100)) in *.
  assert (Ha : Qabs q == q) by (apply Qabs_pos; exact Hq).
  rewrite Ha in Hnear, Htie.
  assert (Hr : (0 <= r)%Z).
  { apply Qabs_Qle_condition in Hnear.
    assert (Hm : inject_Z (-1) < inject_Z r).
    { change (inject_Z (-1)) with (- (1)). lra. }
    rewrite <- Zlt_Qlt in Hm. lia. }
  exists (Z.to_N r). rewrite Z2N.id by exact Hr.
  split; [exact Hnear|]. split.
  - intro H. specialize (Htie H).
    rewrite <- Htie. destruct r; try reflexivity. lia.
  - cbn [String.append].
    replace ((Z.to_N r mod 100) mod 10)%N with (Z.to_N r mod 10)%N; [reflexivity|].
    change 100%N with (10 * 10)%N.
    rewrite N.Div0.mod_mul_r, N.mul_comm, N.Div0.mod_add, N.Div0.mod_mod.
    reflexivity.
Qed.

Lemma magnitude_nonneg (x : IEEE.float) : 0 <= IEEE.magnitude x.
Proof.
  destruct x as [s|s| |s m e]; try (apply Qle_refl).
  unfold IEEE.magnitude.
  destruct e as [|p|p].
  - unfold Qle. simpl. lia.
  - unfold Qle. cbn [inject_Z Qnum Qden].
    assert (0 <= 2 ^ Zpos p)%Z by (apply Z.pow_nonneg; lia). nia.
  - unfold Qle. simpl. lia.
Qed.

Lemma fixed2_not_special (q : Q) : Csv.has_special (Fmt.fixed2 q) = false.
Proof.
  destruct (fixed2_shape q) as (sign & int & d1 & d2 & -> & Hs & _ & Hi & H1 & H2).
  rewrite !has_special_append, (digits_not_special int Hi).
  cbn [Csv.has_special].
  rewrite (digit_not_special d1 H1), (digit_not_special d2 H2).
  destruct Hs as [-> | ->]; reflexivity.
Qed.

Lemma field_ieee_fixed2 (x : IEEE.float) :
  Csv.field (IEEE.fixed2 x) = IEEE.fixed2 x.
Proof.
  unfold Csv.field.
  assert (H : Csv.has_special (IEEE.fixed2 x) = false).
  { destruct x as [s|s| |s m e]; cbn [IEEE.fixed2];
      try (destruct s; reflexivity); try reflexivity;
      rewrite has_special_append, fixed2_not_special;
      destruct (IEEE.sign_bit _); reflexivity. }
  rewrite H. reflexivity.
Qed.

(** C6. When [write_csv] returns, the file of the given name holds the header
    row [Assignment,Category,Grade,Weight] followed by one row per record, in
    the order of the list; a row holds the name, the category, the grade and
    the weight, the two numbers formatted by [{x:.2f}], and nothing else in
    the world has changed.  For a finite number this text has exactly two
    decimal digits: a minus sign when the sign bit is set, then the digits of
    the number of hundredths nearest to the magnitude, ties going to the even
    one.  An infinity or NaN is written [inf], [-inf] or [nan]. *)
Theorem write_csv_rows (assignments : list IEEE.Assignment) (filename : string)
        (w w' : World) :
  IEEE.write_csv assignments filename w = Returns tt w' ->
  (stdin w' = stdin w /\ stdout w' = stdout w
   /\ lookup filename w'
      = Some (("Assignment,Category,Grade,Weight" ++ Csv.lineterminator)%string
              :: map (fun a =>
                        (Csv.field (IEEE.name a) ++ ","
                         ++ Csv.field (IEEE.category a) ++ ","
                         ++ IEEE.fixed2 (IEEE.grade a) ++ ","
                         ++ IEEE.fixed2 (IEEE.weight a)
                         ++ Csv.lineterminator)%string)
                     assignments))
  /\ (forall x : IEEE.float,
         IEEE.is_finite x = true ->
         two_decimals (IEEE.fixed2 x)
         /\ exists h : N,
              Qabs (inject_Z (Z.of_N h) - IEEE.magnitude x * 100) <= 1 # 2
              /\ (Qabs (inject_Z (Z.of_N h) - IEEE.magnitude x * 100) == 1 # 2 ->
                  N.even h = true)
              /\ IEEE.fixed2 x
                 = ((if IEEE.sign_bit x then "-" else "")
                    ++ Str.of_N (h / 100) ++ "."
                    ++ String (Fmt.digit (h mod 100 / 10))
                              (String (Fmt.digit (h mod 10)) EmptyString))%string)
  /\ (forall x : IEEE.float,
         IEEE.is_finite x = false ->
         IEEE.fixed2 x = "inf" \/ IEEE.fixed2 x = "-inf" \/ IEEE.fixed2 x = "nan").
Proof.
  intro Hrun. split; [|split].
  - unfold IEEE.write_csv, store in Hrun. injection Hrun as <-.
    cbn [stdin stdout files]. split; [reflexivity|]. split; [reflexivity|].
    unfold lookup. cbn [files find fst snd]. rewrite String.eqb_refl.
    cbn [snd]. f_equal.
    rewrite fold_left_writerow_any.
    unfold Csv.writeheader. cbn [app]. f_equal.
    apply map_ext. intro a.
    cbn [map Csv.get String.eqb Ascii.eqb Bool.eqb].
    unfold Csv.line. cbn [map Csv.join].
    rewrite !field_ieee_fixed2.
    repeat (rewrite append_assoc; cbn [String.append]).
    reflexivity.
  - intros x Hfin.
    assert (Hfixed : IEEE.fixed2 x
                     = ((if IEEE.sign_bit x then "-" else "")
                        ++ Fmt.fixed2 (IEEE.magnitude x))%string).
    { destruct x as [s|s| |s m e]; try discriminate Hfin; reflexivity. }
    destruct (fixed2_digits _ (magnitude_nonneg x)) as (h & Hnear & Htie & Hdigits).
    split.
    + rewrite Hfixed.
      destruct (fixed2_shape (IEEE.magnitude x))
        as (sign & int & d1 & d2 & E & Hs & Hne & Hi & H1 & H2).
      assert (Hsign : sign = EmptyString).
      { destruct Hs as [Hs|Hs]; [exact Hs|]. exfalso. subst sign.
        rewrite Hdigits in E.
        destruct (of_uint_digits (N.to_uint (h / 100))) as [Hd Hn].
        unfold Str.of_N in E.
        destruct (NilZero.string_of_uint (N.to_uint (h / 100))) as [|c t];
          [congruence|].
        cbn [String.append] in E. injection E as Ec _. subst c.
        simpl in Hd. discriminate Hd. }
      subst sign. cbn [String.append] in E.
      exists (if IEEE.sign_bit x then "-" else EmptyString), int, d1, d2.
      rewrite E. split; [reflexivity|].
      split; [destruct (IEEE.sign_bit x); auto|]. auto.
    + exists h. split; [exact Hnear|]. split; [exact Htie|].
      rewrite Hfixed, Hdigits. reflexivity.
  - intros x Hfin.
    destruct x as [s|s| |s m e]; try discriminate Hfin; cbn [IEEE.fixed2].
    + destruct s; auto.
    + auto.
Qed.

Lemma write_csv_rows_witness :
  exists w' : World,
    IEEE.write_csv
      [IEEE.mkAssignment "Quiz1" "FA" (IEEE.of_Z 80) (IEEE.of_Z 20);
       IEEE.mkAssignment "Final, part 2" "SA" (IEEE.of_binary 121 (-1))
                         (IEEE.of_Z 80)]
      "grades.csv" (session [] [("grades.csv", ["old"])])
    = Returns tt w'
    /\ lookup "grades.csv" w'
       = Some [("Assignment,Category,Grade,Weight" ++ Csv.lineterminator)%string;
               ("Quiz1,FA,80.00,20.00" ++ Csv.lineterminator)%string;
               String Csv.quotechar
                      ("Final, part 2"
                       ++ String Csv.quotechar
                                 (",SA,60.50,80.00" ++ Csv.lineterminator))%string].
Proof.
  eexists. split; [vm_compute; reflexivity|].
  exact (proj2 (proj2 (proj1
    (write_csv_rows
       [IEEE.mkAssignment "Quiz1" "FA" (IEEE.of_Z 80) (IEEE.of_Z 20);
        IEEE.mkAssignment "Final, part 2" "SA" (IEEE.of_binary 121 (-1))
                          (IEEE.of_Z 80)]
       "grades.csv" (session [] [("grades.csv", ["old"])]) _ eq_refl)))).
Defined.

(** A weight typed [inf] passes the check [weight > 0] of [prompt_weight], and
    its row ends in [inf], which has no decimal digits. *)
Lemma write_csv_inf_weight :
  (exists w' : World,
      IEEE.prompt_weight
        (fun raw => if String.eqb raw "inf" then Some IEEE.inf else None)
        1 (session ["inf"] [])
      = Returns IEEE.inf w')
  /\ (exists w' : World,
         IEEE.write_csv [IEEE.mkAssignment "Quiz1" "FA" (IEEE.of_Z 80) IEEE.inf]
                        "grades.csv" (session [] [])
         = Returns tt w'
         /\ lookup "grades.csv" w'
            = Some [("Assignment,Category,Grade,Weight" ++ Csv.lineterminator)%string;
                    ("Quiz1,FA,80.00,inf" ++ Csv.lineterminator)%string])
  /\ IEEE.fixed2 IEEE.inf = "inf"
  /\ (two_decimals "inf" -> False).
Proof.
  split; [eexists; vm_compute; reflexivity|].
  split; [eexists; split; vm_compute; reflexivity|].
  split; [reflexivity|].
  intros (sign & int & d1 & d2 & E & Hs & Hne & Hi & H1 & H2).
  destruct Hs as [-> | ->]; cbn [String.append] in E.
  - destruct int as [|a [|b [|c t]]]; try congruence; cbn [String.append] in E.
    + discriminate E.
    + discriminate E.
    + destruct t; discriminate E.
  - discriminate E.
Qed.

(** ** The presenter *)

Lemma emit_wrote (s : string) (w : World) : emit s w = wrote [s] w.
Proof. reflexivity. Qed.

Lemma wrote_wrote (a b : list string) (w : World) :
  wrote b (wrote a w) = wrote (a ++ b) w.
Proof.
  unfold wrote. cbn [stdin stdout files]. rewrite <- app_assoc. reflexivity.
Qed.

Lemma wrote_nil (w : World) : wrote [] w = w.
Proof.
  unfold wrote. rewrite app_nil_r. destruct w; reflexivity.
Qed.

Lemma bind_returns {A B} (c : M A) (k : A -> M B) (w w' : World) (a : A) :
  c w = Returns a w' -> bind c k w = k a w'.
Proof.
  intro H. unfold bind. rewrite H. reflexivity.
Qed.

Lemma format_percentage_defined (value total_weight : Q) :
  exists p, format_percentage value total_weight = Some p.
Proof.
  unfold format_percentage, truediv.
  destruct (Qle_bool total_weight 0) eqn:Hle; [eauto|].
  destruct (Qeq_bool total_weight 0) eqn:Hz; [|eauto].
  apply Qeq_bool_iff in Hz. apply Qle_bool_false_iff in Hle.
  rewrite Hz in Hle. exfalso. apply (Qlt_irrefl 0 Hle).
Qed.

Lemma of_nat_head (n : nat) :
  exists c r, Str.of_nat n = String c r /\ Str.is_digit c = true.
Proof.
  unfold Str.of_nat.
  destruct (of_uint_digits (Nat.to_uint n)) as [Hd Hne].
  destruct (NilZero.string_of_uint (Nat.to_uint n)) as [|c r]; [congruence|].
  exists c, r. simpl in Hd. apply andb_true_iff in Hd.
  split; [reflexivity|apply Hd].
Qed.

(** A line that starts with a digit is not a diagnostic. *)
Lemma digit_line_not_failed (c : ascii) (r : string) :
  Str.is_digit c = true -> String.prefix "Failed " (String c r) = false.
Proof.
  intro H. cbn [String.prefix].
  destruct (ascii_dec "F" c) as [<-|_]; [discriminate H|reflexivity].
Qed.

Lemma print_assignments_run (assignments : list Assignment) (idx : nat) (w : World) :
  exists out,
    print_assignments idx assignments w = Returns tt (wrote out w)
    /\ Forall (fun line => String.prefix "Failed " line = false) out.
Proof.
  revert idx w. induction assignments as [|a l IH]; intros idx w.
  - exists []. rewrite wrote_nil. split; [reflexivity|constructor].
  - cbn [print_assignments]. rewrite bind_print.
    match goal with
    | |- context [print_assignments _ _ (emit ?s w)] =>
        destruct (IH (S idx) (emit s w)) as [out [Hrun Hout]];
        exists (s :: out)
    end.
    rewrite Hrun, emit_wrote, wrote_wrote.
    split; [reflexivity|]. constructor; [|exact Hout].
    destruct (of_nat_head idx) as (c & r & -> & Hc).
    cbn [String.append]. apply digit_line_not_failed. exact Hc.
Qed.

Lemma failure_lines_run (totals : Totals) (w : World) :
  (if negb (passes totals) then
     (if Qlt_bool 0 (total_fa_weight totals)
         && Qlt_bool (total_formative totals) (fa_threshold totals)
      then print ("Failed FA (achieved " ++ Fmt.fixed2 (total_formative totals)
                  ++ " / need " ++ Fmt.fixed2 (fa_threshold totals) ++ ")")
      else ret tt) ;;
     (if Qlt_bool 0 (total_sa_weight totals)
         && Qlt_bool (total_summative totals) (sa_threshold totals)
      then print ("Failed SA (achieved " ++ Fmt.fixed2 (total_summative totals)
                  ++ " / need " ++ Fmt.fixed2 (sa_threshold totals) ++ ")")
      else ret tt)
   else ret tt) w
  = Returns tt (wrote (failure_lines totals) w).
Proof.
  unfold failure_lines, failed_fa, failed_sa.
  destruct (passes totals); cbn [negb];
    [unfold ret; rewrite wrote_nil; reflexivity|].
  destruct (Qlt_bool 0 (total_fa_weight totals) && _);
    destruct (Qlt_bool 0 (total_sa_weight totals) && _);
    unfold bind, print, write_stdout, ret; cbn [app];
    rewrite ?emit_wrote, ?wrote_wrote, ?wrote_nil; cbn [app];
    repeat (rewrite append_assoc; cbn [String.append]); reflexivity.
Qed.

(** [print_summary] always returns; what it prints is a report without any
    line that starts with [Failed], followed by the diagnostic lines. *)
Lemma print_summary_run (assignments : list Assignment) (totals : Totals)
      (w : World) :
  exists report,
    print_summary assignments totals w
    = Returns tt (wrote (report ++ failure_lines totals) w)
    /\ Forall (fun line => String.prefix "Failed " line = false) report.
Proof.
  unfold print_summary. cbv zeta.
  rewrite !bind_print.
  match goal with
  | |- context [bind (print_assignments 1 assignments) _ ?w0] =>
      destruct (print_assignments_run assignments 1 w0) as [out [Hrun Hout]];
      rewrite (bind_returns _ _ _ _ _ Hrun)
  end.
  rewrite bind_print.
  destruct (format_percentage_defined (total_formative totals)
                                      (total_fa_weight totals)) as [fa Hfa].
  destruct (format_percentage_defined (total_summative totals)
                                      (total_sa_weight totals)) as [sa Hsa].
  rewrite Hfa, Hsa. cbn [lift].
  unfold bind at 1, ret at 1. unfold bind at 1, ret at 1.
  rewrite !bind_print, failure_lines_run.
  rewrite !emit_wrote, !wrote_wrote, !app_assoc.
  eexists. split; [reflexivity|].
  repeat (apply Forall_app; split); try exact Hout;
    repeat constructor.
Qed.

Lemma failed_fa_prefix (totals : Totals) :
  String.prefix "Failed " (failed_fa totals) = true.
Proof. reflexivity. Qed.

Lemma failed_sa_prefix (totals : Totals) :
  String.prefix "Failed " (failed_sa totals) = true.
Proof. reflexivity. Qed.

Lemma failed_fa_sa (totals : Totals) : failed_fa totals <> failed_sa totals.
Proof. unfold failed_fa, failed_sa. cbn [String.append]. congruence. Qed.

(** Among the printed lines, those that start with [Failed] are exactly the
    diagnostic lines. *)
Lemma failed_line_in (report diags : list string) (line : string) :
  Forall (fun l => String.prefix "Failed " l = false) report ->
  String.prefix "Failed " line = true ->
  In line (report ++ diags) <-> In line diags.
Proof.
  intros Hr Hl. rewrite in_app_iff. split; [|auto].
  intros [H|H]; [|exact H].
  rewrite Forall_forall in Hr. rewrite (Hr _ H) in Hl. discriminate Hl.
Qed.

(** C8. [print_summary] always returns, and among the lines it prints the
    diagnostic of a category is present exactly when the verdict is FAIL, the
    total weight of the category is positive and its achieved total is below
    its threshold; the line names the achieved total and the threshold of the
    totals, and no other printed line starts with [Failed]. *)
Theorem failure_diagnostics (assignments : list Assignment) (totals : Totals)
        (w : World) :
  exists out,
    print_summary assignments totals w
    = Returns tt {| stdin := stdin w;
                    stdout := (stdout w ++ out)%list;
                    files := files w |}
    /\ (In ("Failed FA (achieved " ++ Fmt.fixed2 (total_formative totals)
            ++ " / need " ++ Fmt.fixed2 (fa_threshold totals) ++ ")" ++ Str.nl)%string
           out
        <-> passes totals = false
            /\ 0 < total_fa_weight totals
            /\ total_formative totals < fa_threshold totals)
    /\ (In ("Failed SA (achieved " ++ Fmt.fixed2 (total_summative totals)
            ++ " / need " ++ Fmt.fixed2 (sa_threshold totals) ++ ")" ++ Str.nl)%string
           out
        <-> passes totals = false
            /\ 0 < total_sa_weight totals
            /\ total_summative totals < sa_threshold totals)
    /\ (forall line,
           In line out -> String.prefix "Failed " line = true ->
           line = ("Failed FA (achieved " ++ Fmt.fixed2 (total_formative totals)
                   ++ " / need " ++ Fmt.fixed2 (fa_threshold totals)
                   ++ ")" ++ Str.nl)%string
           \/ line = ("Failed SA (achieved " ++ Fmt.fixed2 (total_summative totals)
                      ++ " / need " ++ Fmt.fixed2 (sa_threshold totals)
                      ++ ")" ++ Str.nl)%string).
Proof.
  destruct (print_summary_run assignments totals w) as [report [Hrun Hrep]].
  exists (report ++ failure_lines totals)%list.
  split; [exact Hrun|].
  fold (failed_fa totals). fold (failed_sa totals).
  pose proof (failed_fa_sa totals) as Hne.
  rewrite (failed_line_in _ _ _ Hrep (failed_fa_prefix totals)).
  rewrite (failed_line_in _ _ _ Hrep (failed_sa_prefix totals)).
  assert (Hin : forall line, In line (failure_lines totals) ->
                             line = failed_fa totals \/ line = failed_sa totals).
  { intro line. unfold failure_lines.
    destruct (negb (passes totals)); [|intros []].
    rewrite in_app_iff.
    destruct (Qlt_bool 0 (total_fa_weight totals) && _);
      destruct (Qlt_bool 0 (total_sa_weight totals) && _);
      simpl; intuition. }
  split; [|split].
  - unfold failure_lines. rewrite <- !Qlt_bool_iff.
    destruct (passes totals); cbn [negb];
      [simpl; intuition discriminate|].
    rewrite in_app_iff.
    destruct (Qlt_bool 0 (total_fa_weight totals)),
      (Qlt_bool (total_formative totals) (fa_threshold totals));
      destruct (Qlt_bool 0 (total_sa_weight totals) && _);
      simpl; intuition (try discriminate; try congruence).
  - unfold failure_lines. rewrite <- !Qlt_bool_iff.
    destruct (passes totals); cbn [negb];
      [simpl; intuition discriminate|].
    rewrite in_app_iff.
    destruct (Qlt_bool 0 (total_sa_weight totals)),
      (Qlt_bool (total_summative totals) (sa_threshold totals));
      destruct (Qlt_bool 0 (total_fa_weight totals) && _);
      simpl; intuition (try discriminate; try congruence).
  - intros line Hl Hp.
    apply Hin. apply (failed_line_in _ _ _ Hrep Hp). exact Hl.
Qed.

(** ** Fuel *)

Lemma bind_stable {A B} (c c' : M A) (k k' : A -> M B) (w : World) :
  bind c k w <> Diverges ->
  (c w <> Diverges -> c' w = c w) ->
  (forall a w', c w = Returns a w' -> k a w' <> Diverges -> k' a w' = k a w') ->
  bind c' k' w = bind c k w.
Proof.
  unfold bind. intros Hnd Hc Hk.
  rewrite Hc; [|intro E; rewrite E in Hnd; congruence].
  destruct (c w) as [a w'| |]; auto.
Qed.

(** The step of a prompting loop in a stability proof: the rounds agree on
    the line read, and a rejected line leads to the induction hypothesis. *)
Ltac stable_round IH :=
  rewrite !bind_input;
  match goal with |- context [stdin ?w] => destruct (stdin w) end;
  [reflexivity|];
  repeat match goal with
         | |- context [if ?b then _ else _] => destruct b
         | |- context [match ?o with Some _ => _ | None => _ end] => destruct o
         end;
  try reflexivity; rewrite !bind_print; apply IH; lia.

Lemma prompt_non_empty_stable (prompt_text : string) :
  stable (fun fuel => prompt_non_empty fuel prompt_text).
Proof.
  intros fuel. induction fuel as [|fuel IH]; intros fuel' w Hle Hnd.
  - exfalso. apply Hnd. reflexivity.
  - destruct fuel' as [|fuel']; [lia|]. revert Hnd.
    cbn [prompt_non_empty]. stable_round IH.
Qed.

Lemma prompt_category_stable : stable prompt_category.
Proof.
  intros fuel. induction fuel as [|fuel IH]; intros fuel' w Hle Hnd.
  - exfalso. apply Hnd. reflexivity.
  - destruct fuel' as [|fuel']; [lia|]. revert Hnd.
    cbn [prompt_category]. stable_round IH.
Qed.

Lemma prompt_continue_stable : stable prompt_continue.
Proof.
  intros fuel. induction fuel as [|fuel IH]; intros fuel' w Hle Hnd.
  - exfalso. apply Hnd. reflexivity.
  - destruct fuel' as [|fuel']; [lia|]. revert Hnd.
    cbn [prompt_continue]. stable_round IH.
Qed.

Section Fuel.

Variable float : string -> option Q.

Lemma prompt_grade_stable : stable (prompt_grade float).
Proof.
  intros fuel. induction fuel as [|fuel IH]; intros fuel' w Hle Hnd.
  - exfalso. apply Hnd. reflexivity.
  - destruct fuel' as [|fuel']; [lia|]. revert Hnd.
    cbn [prompt_grade]. stable_round IH.
Qed.

Lemma prompt_weight_stable : stable (prompt_weight float).
Proof.
  intros fuel. induction fuel as [|fuel IH]; intros fuel' w Hle Hnd.
  - exfalso. apply Hnd. reflexivity.
  - destruct fuel' as [|fuel']; [lia|]. revert Hnd.
    cbn [prompt_weight]. stable_round IH.
Qed.

Lemma collect_loop_stable (assignments : list Assignment) :
  stable (fun fuel => collect_loop float fuel assignments).
Proof.
  intros fuel. revert assignments.
  induction fuel as [|fuel IH]; intros assignments fuel' w Hle Hnd.
  - exfalso. apply Hnd. reflexivity.
  - destruct fuel' as [|fuel']; [lia|]. revert Hnd.
    cbn [collect_loop]. rewrite !bind_print. intro Hnd.
    apply bind_stable;
      [exact Hnd | apply (prompt_non_empty_stable _ _ _ _ Hle) | clear Hnd].
    intros nm w1 _ Hnd.
    apply bind_stable;
      [exact Hnd | apply (prompt_category_stable _ _ _ Hle) | clear Hnd].
    intros cat w2 _ Hnd.
    apply bind_stable;
      [exact Hnd | apply (prompt_grade_stable _ _ _ Hle) | clear Hnd].
    intros g w3 _ Hnd.
    apply bind_stable;
      [exact Hnd | apply (prompt_weight_stable _ _ _ Hle) | clear Hnd].
    intros x w4 _ Hnd. cbv zeta in *.
    apply bind_stable;
      [exact Hnd | apply (prompt_continue_stable _ _ _ Hle) | clear Hnd].
    intros [|] w5 _ Hnd; cbn [negb] in *; [|reflexivity].
    apply IH; [lia|exact Hnd].
Qed.

(** A run of [main] that does not lack fuel is the same with any more fuel,
    and no run lacks fuel when there is more fuel than lines to read. *)
Lemma main_stable : stable (main float).
Proof.
  intros fuel fuel' w Hle Hnd. unfold main in *.
  apply bind_stable; [exact Hnd| |reflexivity].
  apply (collect_loop_stable [] _ _ _ Hle).
Qed.

Lemma main_enough_fuel (fuel : nat) (w : World) :
  (List.length (stdin w) < fuel)%nat -> main float fuel w <> Diverges.
Proof.
  intros Hlt. unfold main, bind, collect_assignments.
  pose proof (collect_loop_outcome float fuel [] w) as P.
  unfold prompt_outcome, outcome_within in P.
  destruct (collect_loop float fuel [] w) as [l w'| |]; [|discriminate|lia].
  destruct P as [[added [-> [Hne _]]] _].
  unfold main_body. destruct added as [|a added]; [congruence|].
  cbn [app is_empty].
  destruct (print_summary_run (a :: added) (calculate_totals (a :: added)) w')
    as [report [Hrun _]].
  unfold bind. rewrite Hrun. discriminate.
Qed.

End Fuel.

(** ** Sessions without a rejected line *)

Section Scripts.

Variable float : string -> option Q.

Lemma prompt_non_empty_accept (fuel : nat) (prompt_text line : string)
      (rest : list string) (w : World) :
  stdin w = line :: rest ->
  Str.truthy (Str.strip line) = true ->
  prompt_non_empty (S fuel) prompt_text w
  = Returns (Str.strip line)
            {| stdin := rest; stdout := stdout (emit prompt_text w); files := files w |}.
Proof.
  intros E H. cbn [prompt_non_empty]. rewrite bind_input, E, H. reflexivity.
Qed.

Lemma prompt_category_accept (fuel : nat) (line : string)
      (rest : list string) (w : World) :
  stdin w = line :: rest ->
  Str.upper (Str.strip line) = "FA" \/ Str.upper (Str.strip line) = "SA" ->
  prompt_category (S fuel) w
  = Returns (Str.upper (Str.strip line))
            {| stdin := rest; stdout := stdout (emit "Category (FA/SA): " w);
               files := files w |}.
Proof.
  intros E H. cbn [prompt_category]. rewrite bind_input, E.
  destruct H as [-> | ->]; reflexivity.
Qed.

Lemma prompt_grade_accept (fuel : nat) (line : string) (g : Q)
      (rest : list string) (w : World) :
  stdin w = line :: rest ->
  float (Str.strip line) = Some g -> 0 <= g <= 100 ->
  prompt_grade float (S fuel) w
  = Returns g {| stdin := rest; stdout := stdout (emit "Grade (0-100): " w);
                 files := files w |}.
Proof.
  intros E H [Hlo Hhi]. cbn [prompt_grade]. rewrite bind_input, E, H.
  apply Qle_bool_iff in Hlo, Hhi. rewrite Hlo, Hhi. reflexivity.
Qed.

Lemma prompt_weight_accept (fuel : nat) (line : string) (x : Q)
      (rest : list string) (w : World) :
  stdin w = line :: rest ->
  float (Str.strip line) = Some x -> 0 < x ->
  prompt_weight float (S fuel) w
  = Returns x {| stdin := rest; stdout := stdout (emit "Weight (> 0): " w);
                 files := files w |}.
Proof.
  intros E H Hpos. cbn [prompt_weight]. rewrite bind_input, E, H.
  apply Qlt_bool_iff in Hpos. rewrite Hpos. reflexivity.
Qed.

Lemma prompt_continue_yes (fuel : nat) (rest : list string) (w : World) :
  stdin w = "y" :: rest ->
  prompt_continue (S fuel) w
  = Returns true {| stdin := rest;
                    stdout := stdout (emit "Add another assignment? (y/n): " w);
                    files := files w |}.
Proof.
  intros E. cbn [prompt_continue]. rewrite bind_input, E. reflexivity.
Qed.

Lemma prompt_continue_no (fuel : nat) (rest : list string) (w : World) :
  stdin w = "n" :: rest ->
  prompt_continue (S fuel) w
  = Returns false {| stdin := rest;
                     stdout := stdout (emit "Add another assignment? (y/n): " w);
                     files := files w |}.
Proof.
  intros E. cbn [prompt_continue]. rewrite bind_input, E. reflexivity.
Qed.

(** Every non-empty list of records that the validator accepts is what the
    collecting loop returns when their lines are typed: the loop consumes
    exactly the script and leaves the rest of the input. *)
Lemma collect_loop_script (entries : list Entry) (records : list Assignment) :
  Forall2 (accepts float) entries records ->
  entries <> [] ->
  forall (fuel : nat) (collected : list Assignment) (w : World) (rest : list string),
    (List.length entries <= fuel)%nat ->
    stdin w = (script entries ++ rest)%list ->
    exists w',
      collect_loop float fuel collected w = Returns (collected ++ records)%list w'
      /\ stdin w' = rest /\ files w' = files w.
Proof.
  induction 1 as [|e a entries records Ha Hrest IH]; [congruence|].
  intros _ fuel collected w rest Hfuel Hin.
  destruct fuel as [|fuel]; [simpl in Hfuel; lia|].
  destruct Ha as (Hn & En & Ec & Hc & Eg & Hg & Ex & Hx).
  cbn [script app] in Hin.
  cbn [collect_loop]. rewrite bind_print.
  erewrite bind_returns;
    [|eapply prompt_non_empty_accept; [cbn [emit stdin]; exact Hin|exact Hn]].
  erewrite bind_returns;
    [|eapply prompt_category_accept; [reflexivity|rewrite <- Ec; exact Hc]].
  erewrite bind_returns;
    [|eapply prompt_grade_accept; [reflexivity|exact Eg|exact Hg]].
  erewrite bind_returns;
    [|eapply prompt_weight_accept; [reflexivity|exact Ex|exact Hx]].
  cbv zeta. rewrite <- En, <- Ec.
  replace (mkAssignment (name a) (category a) (grade a) (weight a)) with a
    by (destruct a; reflexivity).
  destruct entries as [|e' entries].
  - inversion Hrest; subst.
    erewrite bind_returns; [|eapply prompt_continue_no; reflexivity].
    eexists. split; [reflexivity|]. split; reflexivity.
  - erewrite bind_returns; [|eapply prompt_continue_yes; reflexivity].
    cbn [negb].
    match goal with
    | |- context [collect_loop float fuel _ ?w0] =>
        destruct (IH ltac:(discriminate) fuel (collected ++ [a])%list w0 rest)
          as [w' [Hrun [Hin' Hf']]];
        [simpl in Hfuel |- *; lia|reflexivity|]
    end.
    exists w'. split; [|split; [exact Hin'|exact Hf']].
    rewrite <- app_assoc in Hrun. exact Hrun.
Qed.

End Scripts.

(** ** Runs on concrete data *)

Lemma failure_diagnostics_witness :
  let l := [mkAssignment "Quiz1" "FA" 40 50; mkAssignment "Final" "SA" 90 50] in
  exists out,
    print_summary l (calculate_totals l) (session [] [])
    = Returns tt {| stdin := []; stdout := out; files := [] |}
    /\ In ("Failed FA (achieved 20.00 / need 25.00)" ++ Str.nl)%string out
    /\ ~ In ("Failed SA (achieved 45.00 / need 25.00)" ++ Str.nl)%string out.
Proof.
  intro l.
  destruct (failure_diagnostics l (calculate_totals l) (session [] []))
    as [out [Hrun [Hfa [Hsa _]]]].
  exists out. split; [exact Hrun|]. split.
  - apply Hfa. split; [reflexivity|]. split; Qcmp.
  - intro H. apply Hsa in H. destruct H as [_ [_ H]].
    apply Qlt_bool_iff in H. discriminate H.
Defined.

Example strip_upper_run : Str.upper (Str.strip "   fa  ") = "FA".
Proof. reflexivity. Qed.

Example strip_inner_space : Str.strip "  Quiz 1 " = "Quiz 1".
Proof. reflexivity. Qed.

Example fixed2_runs :
  Fmt.fixed2 80 = "80.00" /\ Fmt.fixed2 (16 # 5) = "3.20"
  /\ Fmt.fixed2 (1 # 3) = "0.33" /\ Fmt.fixed2 (2 # 3) = "0.67"
  /\ Fmt.fixed2 (1 # 8) = "0.12" /\ Fmt.fixed2 (3 # 8) = "0.38"
  /\ Fmt.fixed2 (- (5 # 2)) = "-2.50".
Proof. repeat split; reflexivity. Qed.

(** A name with a comma is written between quotes. *)
Example csv_quoted_name :
  Csv.line ["Essay, part 1"; "FA"; "70.00"; "10.00"]
  = String Csv.quotechar
      ("Essay, part 1" ++ String Csv.quotechar (",FA,70.00,10.00" ++ Csv.lineterminator)).
Proof. reflexivity. Qed.

(** One formative record (grade 80, weight 20) and one summative record
    (grade 60, weight 80). *)
Example totals_run :
  let t := calculate_totals [mkAssignment "Quiz1" "FA" 80 20;
                             mkAssignment "Final" "SA" 60 80] in
  total_formative t == 16 /\ total_summative t == 48
  /\ total_fa_weight t == 20 /\ total_sa_weight t == 80
  /\ final_grade t == 64 /\ gpa t == 16 # 5
  /\ fa_threshold t == 10 /\ sa_threshold t == 40
  /\ passes t = true.
Proof. cbv zeta. repeat split; reflexivity. Qed.

(** A session that ends before the first record is complete. *)
Example main_end_of_input :
  exists w',
    main Literal.float 5 (session ["Quiz1"; "FA"; "eighty"] [("grades.csv", ["old"])])
    = Raises EOFError w'
    /\ lookup "grades.csv" w' = Some ["old"].
Proof. eexists. split; [vm_compute; reflexivity|reflexivity]. Qed.

(** Outside the data model the verdict and the rule part ways: a category
    whose total weight is negative passes in the code, whatever it achieved. *)
Example negative_weight_passes :
  let t := calculate_totals [mkAssignment "Quiz1" "FA" 100 (-10)] in
  passes t = true
  /\ ~ category_passes (total_fa_weight t) (total_formative t).
Proof.
  cbv zeta. split; [reflexivity|].
  intros [H|H].
  - apply Qeq_bool_iff in H. discriminate H.
  - apply Qle_bool_iff in H. discriminate H.
Qed.


(** * Further properties *)

(** ** The aggregator on filtered, bounded and improved lists *)

Lemma Qlt_bool_comp (x x' y y' : Q) :
  x == x' -> y == y' -> Qlt_bool x y = Qlt_bool x' y'.
Proof.
  intros Hx Hy. unfold Qlt_bool. rewrite Hx, Hy. reflexivity.
Qed.

Lemma filter_known (c : string) (l : list Assignment) :
  c = "FA" \/ c = "SA" ->
  filter (in_category c) (filter known_category l) = filter (in_category c) l.
Proof.
  intro Hc. induction l as [|a l IH]; [reflexivity|].
  simpl. unfold known_category at 1.
  destruct (in_category c a) eqn:E.
  - assert (Hk : in_category "FA" a || in_category "SA" a = true).
    { destruct Hc; subst c; rewrite E; auto using orb_true_r. }
    rewrite Hk. simpl. rewrite E, IH. reflexivity.
  - destruct (in_category "FA" a || in_category "SA" a); [|exact IH].
    simpl. rewrite E. exact IH.
Qed.

(** X2. [calculate_totals] ignores every record whose category is not
    exactly FA or SA: dropping those records changes nothing in the result,
    and a list made only of such records has a final grade of 0 and
    passes. *)
Theorem calculate_totals_ignores_unknown (l : list Assignment) :
  calculate_totals (filter known_category l) = calculate_totals l
  /\ (forallb (fun a => negb (known_category a)) l = true ->
      final_grade (calculate_totals l) == 0
      /\ passes (calculate_totals l) = true).
Proof.
  split.
  - unfold calculate_totals.
    rewrite !(filter_known "FA"), !(filter_known "SA") by auto. reflexivity.
  - intro H.
    assert (E : filter known_category l = []).
    { induction l as [|a l IH]; [reflexivity|].
      simpl in H. apply andb_true_iff in H. destruct H as [Ha Hl].
      simpl. apply negb_true_iff in Ha. rewrite Ha. auto. }
    assert (Ht : calculate_totals l = calculate_totals []).
    { unfold calculate_totals.
      rewrite <- !(filter_known "FA" l), <- !(filter_known "SA" l), E by auto.
      reflexivity. }
    rewrite Ht. split; reflexivity.
Qed.

Lemma calculate_totals_ignores_unknown_witness :
  final_grade (calculate_totals [mkAssignment "Quiz1" "fa" 80 20]) == 0
  /\ passes (calculate_totals [mkAssignment "Quiz1" "fa" 80 20]) = true.
Proof.
  apply (proj2 (calculate_totals_ignores_unknown
                  [mkAssignment "Quiz1" "fa" 80 20])).
  reflexivity.
Defined.

Lemma weighted_grade_bounds (a : Assignment) :
  0 <= grade a <= 100 -> 0 < weight a ->
  0 <= weighted_grade a <= weight a.
Proof.
  intros [Hlo Hhi] Hw. unfold weighted_grade.
  assert (Hg0 : 0 <= grade a / 100) by (apply Qle_shift_div_l; lra).
  assert (Hg1 : grade a / 100 <= 1) by (apply Qle_shift_div_r; lra).
  split; nra.
Qed.

Lemma sum_weighted_bounds (l : list Assignment) :
  Forall (fun a => 0 <= grade a <= 100 /\ 0 < weight a) l ->
  0 <= sum (map weighted_grade l) <= sum (map weight l).
Proof.
  induction 1 as [|a l [Hg Hw] _ IH]; simpl.
  - rewrite sum_nil. lra.
  - rewrite !sum_cons.
    pose proof (weighted_grade_bounds a Hg Hw). lra.
Qed.

Lemma Forall_filter {A} (P : A -> Prop) (p : A -> bool) (l : list A) :
  Forall P l -> Forall P (filter p l).
Proof.
  intro H. apply Forall_forall. intros x Hx.
  apply filter_In in Hx. rewrite Forall_forall in H. apply H, Hx.
Qed.

Lemma percentage_bounds (value total_weight : Q) :
  0 <= value <= total_weight ->
  exists p, format_percentage value total_weight = Some p /\ 0 <= p <= 100.
Proof.
  intros [Hlo Hhi]. unfold format_percentage, truediv.
  destruct (Qle_bool total_weight 0) eqn:Hle.
  - exists 0. split; [reflexivity|lra].
  - apply Qle_bool_false_iff in Hle.
    destruct (Qeq_bool total_weight 0) eqn:Hz.
    + apply Qeq_bool_iff in Hz. lra.
    + eexists. split; [reflexivity|].
      assert (H0 : 0 <= value / total_weight) by (apply Qle_shift_div_l; lra).
      assert (H1 : value / total_weight <= 1) by (apply Qle_shift_div_r; lra).
      lra.
Qed.

(** X3. On records with grades in [0, 100] and positive weights that add up
    to at most 100, what a category achieves lies between 0 and the total
    weight of the category, so the percentage that [print_summary] shows for
    it, computed by [format_percentage], lies between 0 and 100; the final
    grade lies between 0 and the total weight of all records. *)
Theorem category_totals_bounded (l : list Assignment) :
  Forall (fun a => 0 <= grade a <= 100 /\ 0 < weight a) l ->
  total_fa_weight (calculate_totals l) + total_sa_weight (calculate_totals l) <= 100 ->
  0 <= total_formative (calculate_totals l) <= total_fa_weight (calculate_totals l)
  /\ 0 <= total_summative (calculate_totals l) <= total_sa_weight (calculate_totals l)
  /\ (exists p,
         format_percentage (total_formative (calculate_totals l))
                           (total_fa_weight (calculate_totals l)) = Some p
         /\ 0 <= p <= 100)
  /\ (exists p,
         format_percentage (total_summative (calculate_totals l))
                           (total_sa_weight (calculate_totals l)) = Some p
         /\ 0 <= p <= 100)
  /\ 0 <= final_grade (calculate_totals l)
     <= total_fa_weight (calculate_totals l) + total_sa_weight (calculate_totals l).
Proof.
  intros H _.
  pose proof (sum_weighted_bounds _ (Forall_filter _ (in_category "FA") _ H)) as Hf.
  pose proof (sum_weighted_bounds _ (Forall_filter _ (in_category "SA") _ H)) as Hs.
  cbn [calculate_totals total_formative total_summative total_fa_weight
       total_sa_weight final_grade].
  split; [exact Hf|]. split; [exact Hs|].
  split; [apply percentage_bounds; exact Hf|].
  split; [apply percentage_bounds; exact Hs|].
  lra.
Qed.

Lemma category_totals_bounded_witness :
  let t := calculate_totals [mkAssignment "Quiz1" "FA" 80 20;
                             mkAssignment "Final" "SA" 60 80] in
  0 <= final_grade t <= total_fa_weight t + total_sa_weight t.
Proof.
  apply (category_totals_bounded [mkAssignment "Quiz1" "FA" 80 20;
                                  mkAssignment "Final" "SA" 60 80]).
  - repeat (apply Forall_cons; [split; [split; Qcmp|Qcmp]|]). apply Forall_nil.
  - Qcmp.
Defined.

(** X4. When the records have grades in [0, 100] and positive weights that
    add up to at most 100, the final grade lies in [0, 100] and the GPA in
    [0, 5]. *)
Theorem final_grade_within_scale (l : list Assignment) :
  Forall (fun a => 0 <= grade a <= 100 /\ 0 < weight a) l ->
  total_fa_weight (calculate_totals l) + total_sa_weight (calculate_totals l) <= 100 ->
  0 <= final_grade (calculate_totals l) <= 100
  /\ 0 <= gpa (calculate_totals l) <= 5.
Proof.
  intros H.
  pose proof (sum_weighted_bounds _ (Forall_filter _ (in_category "FA") _ H)) as Hf.
  pose proof (sum_weighted_bounds _ (Forall_filter _ (in_category "SA") _ H)) as Hs.
  cbn [calculate_totals total_fa_weight total_sa_weight final_grade gpa].
  intro Hw.
  set (fg := sum (map weighted_grade _) + _) in *.
  assert (Hfg : 0 <= fg <= 100) by (unfold fg; lra).
  split; [exact Hfg|].
  assert (H0 : 0 <= fg / 100) by (apply Qle_shift_div_l; lra).
  assert (H1 : fg / 100 <= 1) by (apply Qle_shift_div_r; lra).
  lra.
Qed.

Lemma final_grade_within_scale_witness :
  let t := calculate_totals [mkAssignment "Quiz1" "FA" 80 20;
                             mkAssignment "Final" "SA" 60 80] in
  0 <= final_grade t <= 100 /\ 0 <= gpa t <= 5.
Proof.
  apply (final_grade_within_scale [mkAssignment "Quiz1" "FA" 80 20;
                                   mkAssignment "Final" "SA" 60 80]).
  - repeat (apply Forall_cons; [split; [split; Qcmp|Qcmp]|]). apply Forall_nil.
  - Qcmp.
Defined.

Lemma improved_filter (c : string) (l l' : list Assignment) :
  Forall2 improved l l' ->
  Forall2 improved (filter (in_category c) l) (filter (in_category c) l').
Proof.
  induction 1 as [|a a' l l' Ha _ IH]; [constructor|].
  simpl. destruct Ha as [Ec Hrest].
  assert (E : in_category c a' = in_category c a)
    by (unfold in_category; rewrite Ec; reflexivity).
  rewrite E. destruct (in_category c a); [|exact IH].
  constructor; [split; assumption|exact IH].
Qed.

Lemma improved_sums (l l' : list Assignment) :
  Forall2 improved l l' ->
  Forall (fun a => 0 < weight a) l ->
  sum (map weight l') == sum (map weight l)
  /\ sum (map weighted_grade l) <= sum (map weighted_grade l').
Proof.
  induction 1 as [|a a' l l' [_ [Hw Hg]] _ IH]; intro Hpos.
  - split; [reflexivity|apply Qle_refl].
  - inversion Hpos as [|? ? Ha Hl]; subst.
    destruct (IH Hl) as [IHw IHg].
    simpl. rewrite !sum_cons. split; [rewrite Hw, IHw; reflexivity|].
    unfold weighted_grade at 1 3. rewrite Hw.
    assert (grade a / 100 <= grade a' / 100).
    { apply Qmult_le_compat_r; [exact Hg|]. apply Qle_bool_iff. reflexivity. }
    nra.
Qed.

(** X7. Raising grades never hurts: when the records of [l'] are those of
    [l], one by one, with the same category and weight and a grade at least
    as high, the grades lie in [0, 100] and the weights are positive and add
    up to at most 100, the final grade of [l'] is at least that of [l], and
    [l'] passes whenever [l] passes. *)
Theorem improved_grades_keep_pass (l l' : list Assignment) :
  Forall2 improved l l' ->
  Forall (fun a => 0 <= grade a /\ 0 < weight a) l ->
  Forall (fun a => grade a <= 100) l' ->
  total_fa_weight (calculate_totals l) + total_sa_weight (calculate_totals l) <= 100 ->
  final_grade (calculate_totals l) <= final_grade (calculate_totals l')
  /\ (passes (calculate_totals l) = true -> passes (calculate_totals l') = true).
Proof.
  intros H Hval _ _.
  assert (Hpos : Forall (fun a => 0 < weight a) l).
  { eapply Forall_impl; [|exact Hval]. intros a [_ Ha]. exact Ha. }
  destruct (improved_sums _ _ (improved_filter "FA" _ _ H)
                          (Forall_filter _ _ _ Hpos)) as [Wf Gf].
  destruct (improved_sums _ _ (improved_filter "SA" _ _ H)
                          (Forall_filter _ _ _ Hpos)) as [Ws Gs].
  cbn [calculate_totals final_grade passes].
  split; [lra|].
  rewrite !andb_true_iff.
  rewrite (Qlt_bool_comp 0 0 _ _ (Qeq_refl 0) Wf).
  rewrite (Qlt_bool_comp 0 0 _ _ (Qeq_refl 0) Ws).
  intros [Vf Vs]. split.
  - destruct (Qlt_bool 0 (sum (map weight (filter (in_category "FA") l))));
      [|reflexivity].
    apply Qle_bool_iff in Vf. apply Qle_bool_iff. lra.
  - destruct (Qlt_bool 0 (sum (map weight (filter (in_category "SA") l))));
      [|reflexivity].
    apply Qle_bool_iff in Vs. apply Qle_bool_iff. lra.
Qed.

Lemma improved_grades_keep_pass_witness :
  passes (calculate_totals [mkAssignment "Quiz1" "FA" 90 20;
                            mkAssignment "Final" "SA" 60 80]) = true.
Proof.
  apply (improved_grades_keep_pass
           [mkAssignment "Quiz1" "FA" 80 20; mkAssignment "Final" "SA" 60 80]).
  - repeat (apply Forall2_cons;
            [split; [reflexivity|split; [reflexivity|Qcmp]]|]).
    apply Forall2_nil.
  - repeat (apply Forall_cons; [split; Qcmp|]). apply Forall_nil.
  - repeat (apply Forall_cons; [Qcmp|]). apply Forall_nil.
  - Qcmp.
  - reflexivity.
Defined.


(** ** The prompting loops, line by line *)

Lemma prompt_loop_retries {A} (prompt_text message : string)
      (check : string -> A + string) (rejected : list string) :
  Forall (fun r => check r = inr message) rejected ->
  forall (fuel : nat) (w : World),
    (List.length rejected < fuel)%nat ->
    (forall line value rest,
        check line = inl value ->
        stdin w = (rejected ++ line :: rest)%list ->
        prompt_loop prompt_text check fuel w
        = Returns value
            {| stdin := rest;
               stdout := (stdout w ++ retries prompt_text message rejected)%list;
               files := files w |})
    /\ (stdin w = rejected ->
        prompt_loop prompt_text check fuel w
        = Raises EOFError
            {| stdin := [];
               stdout := (stdout w ++ retries prompt_text message rejected)%list;
               files := files w |}).
Proof.
  unfold retries.
  induction 1 as [|r rejected Hr _ IH]; intros fuel w Hfuel;
    (destruct fuel as [|fuel]; [simpl in Hfuel; lia|]); cbn [prompt_loop].
  - split.
    + intros line value rest Hc E. rewrite bind_input, E. cbn [app].
      rewrite Hc. reflexivity.
    + intro E. rewrite bind_input, E. unfold emit. rewrite E. reflexivity.
  - simpl in Hfuel.
    match goal with
    | |- context [bind (input ?p) ?k w] =>
        assert (Hstep : forall rest, stdin w = r :: rest ->
                  bind (input p) k w
                  = prompt_loop prompt_text check fuel
                      (emit (message ++ Str.nl)
                            {| stdin := rest; stdout := stdout (emit p w);
                               files := files w |}))
    end.
    { intros rest E. rewrite bind_input, E, Hr, bind_print. reflexivity. }
    split.
    + intros line value rest Hc E. rewrite (Hstep _ E).
      match goal with
      | |- prompt_loop _ _ _ ?w1 = _ =>
          destruct (IH fuel w1 ltac:(lia)) as [IHr _];
          rewrite (IHr line value rest Hc eq_refl)
      end.
      cbn [emit stdin stdout files flat_map app].
      rewrite <- !app_assoc. reflexivity.
    + intro E. rewrite (Hstep _ E).
      match goal with
      | |- prompt_loop _ _ _ ?w1 = _ =>
          destruct (IH fuel w1 ltac:(lia)) as [_ IHe];
          rewrite (IHe eq_refl)
      end.
      cbn [emit stdin stdout files flat_map app].
      rewrite <- !app_assoc. reflexivity.
Qed.

Lemma prompt_loop_raises {A} (prompt_text : string) (check : string -> A + string)
      (fuel : nat) (w w' : World) (e : exn) :
  prompt_loop prompt_text check fuel w = Raises e w' ->
  e = EOFError /\ stdin w' = [] /\ files w' = files w.
Proof.
  revert w. induction fuel as [|fuel IH]; intro w; cbn [prompt_loop].
  - discriminate.
  - rewrite bind_input. destruct (stdin w) as [|line rest] eqn:E.
    + intros [= <- <-]. cbn [emit stdin files]. auto.
    + destruct (check line); [discriminate|].
      rewrite bind_print. intro H. apply IH in H. exact H.
Qed.

Lemma prompt_non_empty_is_loop (prompt_text : string) (fuel : nat) (w : World) :
  prompt_non_empty fuel prompt_text w
  = prompt_loop prompt_text
      (fun line => if Str.truthy (Str.strip line) then inl (Str.strip line)
                   else inr "Value cannot be empty.")
      fuel w.
Proof.
  revert w. induction fuel as [|fuel IH]; intro w; [reflexivity|].
  cbn [prompt_non_empty prompt_loop]. apply bind_agree. intros line w1 _.
  destruct (Str.truthy (Str.strip line)); [reflexivity|].
  apply bind_agree. intros. apply IH.
Qed.

Lemma prompt_category_is_loop (fuel : nat) (w : World) :
  prompt_category fuel w
  = prompt_loop "Category (FA/SA): "
      (fun line =>
         if String.eqb (Str.upper (Str.strip line)) "FA"
            || String.eqb (Str.upper (Str.strip line)) "SA"
         then inl (Str.upper (Str.strip line))
         else inr "Category must be 'FA' or 'SA'")
      fuel w.
Proof.
  revert w. induction fuel as [|fuel IH]; intro w; [reflexivity|].
  cbn [prompt_category prompt_loop]. apply bind_agree. intros line w1 _.
  destruct (_ || _); [reflexivity|].
  apply bind_agree. intros. apply IH.
Qed.

Lemma prompt_continue_is_loop (fuel : nat) (w : World) :
  prompt_continue fuel w
  = prompt_loop "Add another assignment? (y/n): "
      (fun line =>
         if String.eqb (Str.lower (Str.strip line)) "y"
            || String.eqb (Str.lower (Str.strip line)) "yes"
         then inl true
         else if String.eqb (Str.lower (Str.strip line)) "n"
                 || String.eqb (Str.lower (Str.strip line)) "no"
              then inl false
              else inr "Please enter 'y' or 'n'.")
      fuel w.
Proof.
  revert w. induction fuel as [|fuel IH]; intro w; [reflexivity|].
  cbn [prompt_continue prompt_loop]. apply bind_agree. intros line w1 _.
  destruct (_ || _); [reflexivity|].
  destruct (_ || _); [reflexivity|].
  apply bind_agree. intros. apply IH.
Qed.

Lemma prompt_grade_is_loop (float : string -> option Q) (fuel : nat) (w : World) :
  prompt_grade float fuel w
  = prompt_loop "Grade (0-100): "
      (fun line =>
         match float (Str.strip line) with
         | None => inr "Grade must be between 0 and 100"
         | Some grade =>
             if Qle_bool 0 grade && Qle_bool grade 100 then inl grade
             else inr "Grade must be between 0 and 100"
         end)
      fuel w.
Proof.
  revert w. induction fuel as [|fuel IH]; intro w; [reflexivity|].
  cbn [prompt_grade prompt_loop]. apply bind_agree. intros line w1 _.
  destruct (float (Str.strip line)) as [g|];
    [destruct (_ && _); [reflexivity|]|];
    apply bind_agree; intros; apply IH.
Qed.

Lemma prompt_weight_is_loop (float : string -> option Q) (fuel : nat) (w : World) :
  prompt_weight float fuel w
  = prompt_loop "Weight (> 0): "
      (fun line =>
         match float (Str.strip line) with
         | None => inr "Weight must be a positive number"
         | Some weight =>
             if Qlt_bool 0 weight then inl weight
             else inr "Weight must be a positive number"
         end)
      fuel w.
Proof.
  revert w. induction fuel as [|fuel IH]; intro w; [reflexivity|].
  cbn [prompt_weight prompt_loop]. apply bind_agree. intros line w1 _.
  destruct (float (Str.strip line)) as [x|];
    [destruct (Qlt_bool 0 x); [reflexivity|]|];
    apply bind_agree; intros; apply IH.
Qed.

(** X8. On lines of ASCII characters, [prompt_non_empty] skips every line
    that is blank after trimming, printing [Value cannot be empty.] for each,
    and returns the first other line, trimmed; the lines after it stay
    unread.  When only blank lines are left it reads them all and raises
    [EOFError]. *)
Theorem prompt_non_empty_retries (prompt_text : string) (rejected : list string)
        (fuel : nat) (w : World) :
  Forall (fun r => ascii_line r = true /\ Str.strip r = EmptyString) rejected ->
  (List.length rejected < fuel)%nat ->
  (forall line rest,
      ascii_line line = true ->
      Str.strip line <> EmptyString ->
      stdin w = (rejected ++ line :: rest)%list ->
      prompt_non_empty fuel prompt_text w
      = Returns (Str.strip line)
          {| stdin := rest;
             stdout := (stdout w
                        ++ retries prompt_text "Value cannot be empty." rejected)%list;
             files := files w |})
  /\ (stdin w = rejected ->
      prompt_non_empty fuel prompt_text w
      = Raises EOFError
          {| stdin := [];
             stdout := (stdout w
                        ++ retries prompt_text "Value cannot be empty." rejected)%list;
             files := files w |}).
Proof.
  intros Hrej Hfuel. rewrite prompt_non_empty_is_loop.
  match goal with
  | |- context [prompt_loop ?p ?check fuel w] =>
      assert (Hall : Forall (fun r => check r = inr "Value cannot be empty.") rejected);
      [|destruct (prompt_loop_retries p "Value cannot be empty." check rejected Hall fuel w Hfuel)
          as [Hret Heof]]
  end.
  - eapply Forall_impl; [|exact Hrej]. intros r [_ Hr]. cbv beta. rewrite Hr.
    reflexivity.
  - split; [|exact Heof].
    intros line rest _ Hline E. apply (Hret line _ rest); [|exact E].
    apply truthy_iff in Hline. rewrite Hline. reflexivity.
Qed.

Lemma prompt_non_empty_retries_witness :
  prompt_non_empty 3 "Assignment Name: " (session [""; "   "; " Quiz 1 "; "FA"] [])
  = Returns "Quiz 1"
      {| stdin := ["FA"];
         stdout := ["Assignment Name: "; "Value cannot be empty." ++ Str.nl;
                    "Assignment Name: "; "Value cannot be empty." ++ Str.nl;
                    "Assignment Name: "];
         files := [] |}.
Proof.
  apply (proj1 (prompt_non_empty_retries "Assignment Name: " [""; "   "] 3
                  (session [""; "   "; " Quiz 1 "; "FA"] [])
                  ltac:(repeat constructor) ltac:(simpl; lia))
               " Quiz 1 " ["FA"]).
  - reflexivity.
  - vm_compute. discriminate.
  - reflexivity.
Defined.

(** X9. On lines of ASCII characters, [prompt_category] skips every line
    that is not FA or SA once trimmed and put in upper case, printing its
    message for each, and returns the first line that is, in upper case: the
    answer is read without regard to case or surrounding blanks.  When no
    such line is left it raises [EOFError]. *)
Theorem prompt_category_retries (rejected : list string) (fuel : nat) (w : World) :
  Forall (fun r => ascii_line r = true
                   /\ Str.upper (Str.strip r) <> "FA"
                   /\ Str.upper (Str.strip r) <> "SA") rejected ->
  (List.length rejected < fuel)%nat ->
  (forall line rest,
      ascii_line line = true ->
      Str.upper (Str.strip line) = "FA" \/ Str.upper (Str.strip line) = "SA" ->
      stdin w = (rejected ++ line :: rest)%list ->
      prompt_category fuel w
      = Returns (Str.upper (Str.strip line))
          {| stdin := rest;
             stdout := (stdout w
                        ++ retries "Category (FA/SA): "
                                   "Category must be 'FA' or 'SA'" rejected)%list;
             files := files w |})
  /\ (stdin w = rejected ->
      prompt_category fuel w
      = Raises EOFError
          {| stdin := [];
             stdout := (stdout w
                        ++ retries "Category (FA/SA): "
                                   "Category must be 'FA' or 'SA'" rejected)%list;
             files := files w |}).
Proof.
  intros Hrej Hfuel. rewrite prompt_category_is_loop.
  match goal with
  | |- context [prompt_loop ?p ?check fuel w] =>
      assert (Hall : Forall (fun r => check r = inr "Category must be 'FA' or 'SA'") rejected);
      [|destruct (prompt_loop_retries p "Category must be 'FA' or 'SA'" check rejected Hall fuel w Hfuel)
          as [Hret Heof]]
  end.
  - eapply Forall_impl; [|exact Hrej]. intros r (_ & Hf & Hs). cbv beta.
    apply String.eqb_neq in Hf, Hs. rewrite Hf, Hs. reflexivity.
  - split; [|exact Heof].
    intros line rest _ Hline E. apply (Hret line _ rest); [|exact E].
    destruct Hline as [-> | ->]; reflexivity.
Qed.

Lemma prompt_category_retries_witness :
  prompt_category 2 (session ["X"; "  sa "; "60"] [])
  = Returns "SA"
      {| stdin := ["60"];
         stdout := ["Category (FA/SA): ";
                    "Category must be 'FA' or 'SA'" ++ Str.nl;
                    "Category (FA/SA): "];
         files := [] |}.
Proof.
  apply (proj1 (prompt_category_retries ["X"] 2 (session ["X"; "  sa "; "60"] [])
                  ltac:(repeat constructor; vm_compute; discriminate)
                  ltac:(simpl; lia))
               "  sa " ["60"]).
  - reflexivity.
  - right. reflexivity.
  - reflexivity.
Defined.

(** X10. [prompt_grade] skips every line that [float] cannot read or reads as
    a number outside [0, 100], printing its message for each, and returns the
    first number in range; both bounds, 0 and 100, are accepted.  When no
    such line is left it raises [EOFError]. *)
Theorem prompt_grade_retries (float : string -> option Q) (rejected : list string)
        (fuel : nat) (w : World) :
  Forall (fun r => forall x, float (Str.strip r) = Some x -> ~ (0 <= x <= 100))
         rejected ->
  (List.length rejected < fuel)%nat ->
  (forall line g rest,
      float (Str.strip line) = Some g -> 0 <= g <= 100 ->
      stdin w = (rejected ++ line :: rest)%list ->
      prompt_grade float fuel w
      = Returns g
          {| stdin := rest;
             stdout := (stdout w
                        ++ retries "Grade (0-100): "
                                   "Grade must be between 0 and 100" rejected)%list;
             files := files w |})
  /\ (stdin w = rejected ->
      prompt_grade float fuel w
      = Raises EOFError
          {| stdin := [];
             stdout := (stdout w
                        ++ retries "Grade (0-100): "
                                   "Grade must be between 0 and 100" rejected)%list;
             files := files w |}).
Proof.
  intros Hrej Hfuel. rewrite prompt_grade_is_loop.
  match goal with
  | |- context [prompt_loop ?p ?check fuel w] =>
      assert (Hall : Forall (fun r => check r = inr "Grade must be between 0 and 100") rejected);
      [|destruct (prompt_loop_retries p "Grade must be between 0 and 100" check rejected Hall fuel w Hfuel)
          as [Hret Heof]]
  end.
  - eapply Forall_impl; [|exact Hrej]. intros r Hr. cbv beta in Hr |- *.
    destruct (float (Str.strip r)) as [x|]; [|reflexivity].
    destruct (Qle_bool 0 x && Qle_bool x 100) eqn:C; [|reflexivity].
    apply andb_true_iff in C. rewrite !Qle_bool_iff in C.
    exfalso. apply (Hr x eq_refl C).
  - split; [|exact Heof].
    intros line g rest Hline [Hlo Hhi] E. apply (Hret line _ rest); [|exact E].
    rewrite Hline. apply Qle_bool_iff in Hlo, Hhi. rewrite Hlo, Hhi. reflexivity.
Qed.

Lemma prompt_grade_retries_witness :
  prompt_grade Literal.float 3 (session ["abc"; "100.5"; " 100 "; "20"] [])
  = Returns (100 + (0 # 1))
      {| stdin := ["20"];
         stdout := ["Grade (0-100): "; "Grade must be between 0 and 100" ++ Str.nl;
                    "Grade (0-100): "; "Grade must be between 0 and 100" ++ Str.nl;
                    "Grade (0-100): "];
         files := [] |}.
Proof.
  apply (proj1 (prompt_grade_retries Literal.float ["abc"; "100.5"] 3
                  (session ["abc"; "100.5"; " 100 "; "20"] [])
                  ltac:(repeat constructor; intros x [= <-]; intros [_ H];
                        apply Qle_bool_iff in H; discriminate H)
                  ltac:(simpl; lia))
               " 100 " (100 + (0 # 1)) ["20"]).
  - reflexivity.
  - split; Qcmp.
  - reflexivity.
Defined.

(** X11. [prompt_weight] skips every line that [float] cannot read or reads
    as a number that is not positive, zero included, printing its message for
    each, and returns the first positive number.  When no such line is left
    it raises [EOFError]. *)
Theorem prompt_weight_retries (float : string -> option Q) (rejected : list string)
        (fuel : nat) (w : World) :
  Forall (fun r => forall x, float (Str.strip r) = Some x -> x <= 0) rejected ->
  (List.length rejected < fuel)%nat ->
  (forall line x rest,
      float (Str.strip line) = Some x -> 0 < x ->
      stdin w = (rejected ++ line :: rest)%list ->
      prompt_weight float fuel w
      = Returns x
          {| stdin := rest;
             stdout := (stdout w
                        ++ retries "Weight (> 0): "
                                   "Weight must be a positive number" rejected)%list;
             files := files w |})
  /\ (stdin w = rejected ->
      prompt_weight float fuel w
      = Raises EOFError
          {| stdin := [];
             stdout := (stdout w
                        ++ retries "Weight (> 0): "
                                   "Weight must be a positive number" rejected)%list;
             files := files w |}).
Proof.
  intros Hrej Hfuel. rewrite prompt_weight_is_loop.
  match goal with
  | |- context [prompt_loop ?p ?check fuel w] =>
      assert (Hall : Forall (fun r => check r = inr "Weight must be a positive number") rejected);
      [|destruct (prompt_loop_retries p "Weight must be a positive number" check rejected Hall fuel w Hfuel)
          as [Hret Heof]]
  end.
  - eapply Forall_impl; [|exact Hrej]. intros r Hr. cbv beta in Hr |- *.
    destruct (float (Str.strip r)) as [x|]; [|reflexivity].
    specialize (Hr x eq_refl). apply Qlt_bool_false_iff in Hr. rewrite Hr.
    reflexivity.
  - split; [|exact Heof].
    intros line x rest Hline Hpos E. apply (Hret line _ rest); [|exact E].
    rewrite Hline. apply Qlt_bool_iff in Hpos. rewrite Hpos. reflexivity.
Qed.

Lemma prompt_weight_retries_witness :
  prompt_weight Literal.float 3 (session ["-5"; "0"] [])
  = Raises EOFError
      {| stdin := [];
         stdout := ["Weight (> 0): "; "Weight must be a positive number" ++ Str.nl;
                    "Weight (> 0): "; "Weight must be a positive number" ++ Str.nl;
                    "Weight (> 0): "];
         files := [] |}.
Proof.
  apply (proj2 (prompt_weight_retries Literal.float ["-5"; "0"] 3
                  (session ["-5"; "0"] [])
                  ltac:(repeat constructor; intros x [= <-];
                        apply Qle_bool_iff; reflexivity)
                  ltac:(simpl; lia))).
  reflexivity.
Defined.

(** X12. On lines of ASCII characters, [prompt_continue] skips every line
    that, trimmed and put in lower case, is none of y, yes, n, no, printing
    its message for each; the first line that is one of them decides: y or
    yes gives [True], n or no gives [False].  When no such line is left it
    raises [EOFError]. *)
Theorem prompt_continue_retries (rejected : list string) (fuel : nat) (w : World) :
  Forall (fun r => ascii_line r = true
                   /\ ~ In (Str.lower (Str.strip r)) ["y"; "yes"; "n"; "no"])
         rejected ->
  (List.length rejected < fuel)%nat ->
  (forall line rest,
      ascii_line line = true ->
      In (Str.lower (Str.strip line)) ["y"; "yes"; "n"; "no"] ->
      stdin w = (rejected ++ line :: rest)%list ->
      prompt_continue fuel w
      = Returns (String.eqb (Str.lower (Str.strip line)) "y"
                 || String.eqb (Str.lower (Str.strip line)) "yes")
          {| stdin := rest;
             stdout := (stdout w
                        ++ retries "Add another assignment? (y/n): "
                                   "Please enter 'y' or 'n'." rejected)%list;
             files := files w |})
  /\ (stdin w = rejected ->
      prompt_continue fuel w
      = Raises EOFError
          {| stdin := [];
             stdout := (stdout w
                        ++ retries "Add another assignment? (y/n): "
                                   "Please enter 'y' or 'n'." rejected)%list;
             files := files w |}).
Proof.
  intros Hrej Hfuel. rewrite prompt_continue_is_loop.
  match goal with
  | |- context [prompt_loop ?p ?check fuel w] =>
      assert (Hall : Forall (fun r => check r = inr "Please enter 'y' or 'n'.") rejected);
      [|destruct (prompt_loop_retries p "Please enter 'y' or 'n'." check rejected Hall fuel w Hfuel)
          as [Hret Heof]]
  end.
  - eapply Forall_impl; [|exact Hrej]. intros r [_ Hr]. cbv beta.
    destruct (String.eqb_spec (Str.lower (Str.strip r)) "y") as [E|_];
      [exfalso; apply Hr; rewrite E; simpl; auto|].
    destruct (String.eqb_spec (Str.lower (Str.strip r)) "yes") as [E|_];
      [exfalso; apply Hr; rewrite E; simpl; auto|].
    destruct (String.eqb_spec (Str.lower (Str.strip r)) "n") as [E|_];
      [exfalso; apply Hr; rewrite E; simpl; auto|].
    destruct (String.eqb_spec (Str.lower (Str.strip r)) "no") as [E|_];
      [exfalso; apply Hr; rewrite E; simpl; auto|].
    reflexivity.
  - split; [|exact Heof].
    intros line rest _ Hline E. apply (Hret line _ rest); [|exact E].
    simpl in Hline.
    destruct Hline as [<-|[<-|[<-|[<-|[]]]]]; reflexivity.
Qed.

Lemma prompt_continue_retries_witness :
  prompt_continue 2 (session ["maybe"; " YES "; "Final"] [])
  = Returns true
      {| stdin := ["Final"];
         stdout := ["Add another assignment? (y/n): ";
                    "Please enter 'y' or 'n'." ++ Str.nl;
                    "Add another assignment? (y/n): "];
         files := [] |}.
Proof.
  apply (proj1 (prompt_continue_retries ["maybe"] 2
                  (session ["maybe"; " YES "; "Final"] [])
                  ltac:(repeat constructor; vm_compute; intuition discriminate)
                  ltac:(simpl; lia))
               " YES " ["Final"]).
  - reflexivity.
  - vm_compute. auto.
  - reflexivity.
Defined.


(** ** The persister and the other files *)

Lemma write_csv_stored (assignments : list Assignment) (filename : string)
      (w : World) :
  write_csv assignments filename w
  = Returns tt
      {| stdin := stdin w;
         stdout := stdout w;
         files := (filename, csv_rows assignments)
                  :: filter (fun p => negb (String.eqb (fst p) filename)) (files w) |}.
Proof.
  unfold write_csv, store. do 2 f_equal. f_equal. f_equal.
  rewrite fold_left_writerow.
  unfold Csv.writeheader, csv_rows. cbn [app]. f_equal.
  apply map_ext. intro a.
  cbn [map Csv.get String.eqb Ascii.eqb Bool.eqb].
  unfold Csv.line. cbn [map Csv.join].
  rewrite !field_fixed2.
  repeat (rewrite append_assoc; cbn [String.append]).
  reflexivity.
Qed.

Lemma find_filter_other (filename other : string) (fs : list (string * File)) :
  other <> filename ->
  find (fun p => String.eqb (fst p) other)
       (filter (fun p => negb (String.eqb (fst p) filename)) fs)
  = find (fun p => String.eqb (fst p) other) fs.
Proof.
  intro Hne. induction fs as [|[k f] fs IH]; [reflexivity|].
  cbn [filter find fst].
  destruct (String.eqb_spec k filename) as [->|Hk]; cbn [negb].
  - destruct (String.eqb_spec filename other) as [E|_]; [congruence|exact IH].
  - cbn [find fst]. destruct (String.eqb k other); [reflexivity|exact IH].
Qed.

(** X13. When [write_csv] returns it has replaced the file of the given name
    and nothing else: every other file of the directory reads as before, the
    old content of the file is gone whatever it was (only one entry of that
    name is left, the new one), and the new content has one row more than
    there are records. *)
Theorem write_csv_replaces (assignments : list Assignment) (filename : string)
        (w w' : World) :
  write_csv assignments filename w = Returns tt w' ->
  (forall other, other <> filename -> lookup other w' = lookup other w)
  /\ (exists rows,
         lookup filename w' = Some rows
         /\ List.length rows = S (List.length assignments)
         /\ filter (fun p => String.eqb (fst p) filename) (files w')
            = [(filename, rows)]).
Proof.
  intro Hrun. rewrite write_csv_stored in Hrun. injection Hrun as <-.
  split.
  - intros other Hne. unfold lookup. cbn [files find fst].
    destruct (String.eqb_spec filename other) as [E|_]; [congruence|].
    rewrite find_filter_other by exact Hne. reflexivity.
  - exists (csv_rows assignments). unfold lookup. cbn [files find filter fst snd].
    rewrite String.eqb_refl. cbn [snd].
    split; [reflexivity|]. split.
    + unfold csv_rows. cbn [List.length]. rewrite length_map. reflexivity.
    + f_equal.
      induction (files w) as [|[k f] fs IH]; [reflexivity|].
      cbn [filter fst]. destruct (String.eqb k filename) eqn:E; cbn [negb].
      * exact IH.
      * cbn [filter fst]. rewrite E. exact IH.
Qed.

Lemma write_csv_replaces_witness :
  exists w',
    write_csv [mkAssignment "Quiz1" "FA" 80 20] "grades.csv"
              (session [] [("notes.txt", ["kept"]); ("grades.csv", ["old"])])
    = Returns tt w'
    /\ lookup "notes.txt" w' = Some ["kept"]
    /\ (exists rows,
           lookup "grades.csv" w' = Some rows /\ List.length rows = 2%nat).
Proof.
  eexists. split; [vm_compute; reflexivity|].
  destruct (write_csv_replaces
              [mkAssignment "Quiz1" "FA" 80 20] "grades.csv"
              (session [] [("notes.txt", ["kept"]); ("grades.csv", ["old"])])
              _ eq_refl)
    as [Hother (rows & Hrows & Hlen & _)].
  split.
  - rewrite Hother; [reflexivity|discriminate].
  - exists rows. split; [exact Hrows|exact Hlen].
Defined.

(** ** Whole sessions *)

Lemma bind_raises_at_end {A B} (fs : list (string * File)) (c : M A)
      (k : A -> M B) (w : World) :
  raises_at_end fs (c w) ->
  (forall a w1, c w = Returns a w1 -> raises_at_end fs (k a w1)) ->
  raises_at_end fs (bind c k w).
Proof.
  intros Hc Hk. unfold bind. destruct (c w) as [a w1| |]; auto.
Qed.

Lemma prompt_loop_raises_at_end {A} (prompt_text : string)
      (check : string -> A + string) (fuel : nat) (w : World) :
  raises_at_end (files w) (prompt_loop prompt_text check fuel w).
Proof.
  unfold raises_at_end.
  destruct (prompt_loop prompt_text check fuel w) as [| e w'|] eqn:E; auto.
  apply (prompt_loop_raises _ _ _ _ _ _ E).
Qed.

Lemma returns_keeps_files {A} (post : A -> Prop) (fuel : nat) (w w1 : World)
      (c : M A) (a : A) :
  prompt_outcome post fuel w (c w) -> c w = Returns a w1 -> files w1 = files w.
Proof.
  intros H E. rewrite E in H. apply H.
Qed.

Lemma collect_loop_raises_at_end (float : string -> option Q) (fuel : nat)
      (assignments : list Assignment) (w : World) :
  raises_at_end (files w) (collect_loop float fuel assignments w).
Proof.
  revert assignments w.
  induction fuel as [|fuel IH]; intros assignments w; [exact I|].
  cbn [collect_loop]. rewrite bind_print.
  change (files w)
    with (files (emit ((Str.nl ++ "Enter assignment details:") ++ Str.nl) w)).
  set (w0 := emit _ w). clearbody w0. clear w.
  apply bind_raises_at_end.
  { rewrite prompt_non_empty_is_loop. apply prompt_loop_raises_at_end. }
  intros nm w1 E1.
  pose proof (returns_keeps_files _ _ _ _ _ _
                (prompt_non_empty_outcome (S fuel) _ w0) E1) as F1.
  rewrite <- F1. apply bind_raises_at_end.
  { rewrite prompt_category_is_loop. apply prompt_loop_raises_at_end. }
  intros cat w2 E2.
  pose proof (returns_keeps_files _ _ _ _ _ _
                (prompt_category_outcome (S fuel) w1) E2) as F2.
  rewrite <- F2. apply bind_raises_at_end.
  { rewrite prompt_grade_is_loop. apply prompt_loop_raises_at_end. }
  intros g w3 E3.
  pose proof (returns_keeps_files _ _ _ _ _ _
                (prompt_grade_outcome float (S fuel) w2) E3) as F3.
  rewrite <- F3. apply bind_raises_at_end.
  { rewrite prompt_weight_is_loop. apply prompt_loop_raises_at_end. }
  intros x w4 E4.
  pose proof (returns_keeps_files _ _ _ _ _ _
                (prompt_weight_outcome float (S fuel) w3) E4) as F4.
  rewrite <- F4. cbv zeta. apply bind_raises_at_end.
  { rewrite prompt_continue_is_loop. apply prompt_loop_raises_at_end. }
  intros continue w5 E5.
  pose proof (returns_keeps_files _ _ _ _ _ _
                (prompt_continue_outcome (S fuel) w4) E5) as F5.
  rewrite <- F5. destruct continue; cbn [negb]; [apply IH|exact I].
Qed.

(** C9. [collect_assignments] never returns an empty list: a run returns at
    least one record, unless the input runs out first, in which case it
    raises [EOFError] with every line read and no file touched, or the fuel
    runs out, which cannot happen with more fuel than lines.  The early exit
    of [main] on an empty list is therefore dead: [main] behaves as the
    program that always aggregates, prints the summary and writes the
    file. *)
Theorem collect_assignments_nonempty (float : string -> option Q) (fuel : nat)
        (w : World) :
  match collect_assignments float fuel w with
  | Returns l _ => l <> []
  | Raises e w' => e = EOFError /\ stdin w' = [] /\ files w' = files w
  | Diverges => (fuel <= List.length (stdin w))%nat
  end
  /\ main float fuel w
     = (assignments <- collect_assignments float fuel ;;
        print_summary assignments (calculate_totals assignments) ;;
        write_csv assignments "grades.csv" ;;
        print (Str.nl ++ "Data saved to grades.csv")) w.
Proof.
  pose proof (collect_loop_outcome float fuel [] w) as P.
  pose proof (collect_loop_raises_at_end float fuel [] w) as R.
  unfold prompt_outcome, outcome_within in P.
  unfold main. split.
  - unfold collect_assignments.
    destruct (collect_loop float fuel [] w) as [l w'| |]; auto.
    destruct P as [[added [-> [Hne _]]] _]. exact Hne.
  - apply bind_agree. unfold collect_assignments. intros l w' H.
    rewrite H in P. destruct P as [[added [-> [Hne _]]] _].
    destruct added; [congruence|reflexivity].
Qed.

Lemma collect_assignments_nonempty_witness :
  exists l w',
    collect_assignments Literal.float 14
      (session ["  Quiz1 "; "fa"; "abc"; "80"; "-5"; "20"; "maybe"; "y";
                ""; "Final"; "X"; "SA"; "60"; "80"; "n"] [])
    = Returns l w'
    /\ l <> []
    /\ map name l = ["Quiz1"; "Final"]
    /\ stdin w' = [].
Proof.
  eexists. eexists. split; [vm_compute; reflexivity|].
  split; [|split; reflexivity].
  exact (proj1 (collect_assignments_nonempty Literal.float 14
                  (session ["  Quiz1 "; "fa"; "abc"; "80"; "-5"; "20"; "maybe";
                            "y"; ""; "Final"; "X"; "SA"; "60"; "80"; "n"] []))).
Defined.

(** What [main] does on a list that is not empty. *)
Lemma main_body_run (a : Assignment) (l : list Assignment) (w : World) :
  exists out,
    main_body (a :: l) w
    = Returns tt
        {| stdin := stdin w;
           stdout := (stdout w ++ out
                      ++ [((Str.nl ++ "Data saved to grades.csv") ++ Str.nl)%string])%list;
           files := ("grades.csv", csv_rows (a :: l))
                    :: filter (fun p => negb (String.eqb (fst p) "grades.csv"))
                              (files w) |}.
Proof.
  unfold main_body. cbn [is_empty].
  destruct (print_summary_run (a :: l) (calculate_totals (a :: l)) w)
    as [report [Hrun _]].
  exists (report ++ failure_lines (calculate_totals (a :: l)))%list.
  rewrite (bind_returns _ _ _ _ _ Hrun).
  rewrite (bind_returns _ _ _ _ _ (write_csv_stored _ _ _)).
  unfold print, write_stdout, emit, wrote. cbn [stdin stdout files].
  rewrite <- app_assoc. reflexivity.
Qed.

(** X14. Typing, in ASCII characters, the lines of a non-empty list of
    records that the validator accepts makes [collect_assignments] return
    exactly these records, in the order typed; it reads the script and
    nothing after it, and touches no file. *)
Theorem collect_assignments_script (float : string -> option Q)
        (entries : list Entry) (records : list Assignment)
        (fuel : nat) (w : World) (rest : list string) :
  Forall (fun e => ascii_entry e = true) entries ->
  Forall2 (accepts float) entries records ->
  entries <> [] ->
  (List.length entries <= fuel)%nat ->
  stdin w = (script entries ++ rest)%list ->
  exists w',
    collect_assignments float fuel w = Returns records w'
    /\ stdin w' = rest /\ files w' = files w.
Proof.
  intros _ Hacc Hne Hfuel Hin.
  destruct (collect_loop_script float entries records Hacc Hne fuel [] w rest
                                Hfuel Hin) as [w' H].
  exists w'. exact H.
Qed.

Lemma collect_assignments_script_witness :
  exists w',
    collect_assignments Literal.float 2
      (session ["Quiz1"; "fa"; "80"; "20"; "y"; " Final "; "SA"; "60"; "80"; "n";
                "unread"] [])
    = Returns [mkAssignment "Quiz1" "FA" (80 + (0 # 1)) (20 + (0 # 1));
               mkAssignment "Final" "SA" (60 + (0 # 1)) (80 + (0 # 1))] w'
    /\ stdin w' = ["unread"] /\ files w' = [].
Proof.
  apply (collect_assignments_script Literal.float
           [mkEntry "Quiz1" "fa" "80" "20"; mkEntry " Final " "SA" "60" "80"]
           [mkAssignment "Quiz1" "FA" (80 + (0 # 1)) (20 + (0 # 1));
            mkAssignment "Final" "SA" (60 + (0 # 1)) (80 + (0 # 1))]
           2
           (session ["Quiz1"; "fa"; "80"; "20"; "y"; " Final "; "SA"; "60"; "80";
                     "n"; "unread"] [])
           ["unread"]).
  - repeat constructor.
  - repeat (apply Forall2_cons;
            [repeat split; try reflexivity; try Qcmp; auto|]).
    apply Forall2_nil.
  - discriminate.
  - simpl. lia.
  - reflexivity.
Defined.

(** X16. With more fuel than lines on the terminal a run of [main] comes to
    an end, and it never raises [ZeroDivisionError].  When it returns,
    [grades.csv] holds a header row and at least one more row, and the last
    thing printed is the confirmation that the data was saved.  When it raises
    [EOFError] the input ran out first: every line was read, and no file was
    written or changed. *)
Theorem main_outcomes (float : string -> option Q) (fuel : nat) (w : World) :
  (List.length (stdin w) < fuel)%nat ->
  main float fuel w <> Diverges
  /\ (forall w', main float fuel w <> Raises ZeroDivisionError w')
  /\ (forall w',
         main float fuel w = Returns tt w' ->
         (exists header rows,
             lookup "grades.csv" w' = Some (header :: rows)
             /\ header = ("Assignment,Category,Grade,Weight" ++ Csv.lineterminator)%string
             /\ rows <> [])
         /\ (exists out,
                stdout w'
                = (out ++ [((Str.nl ++ "Data saved to grades.csv") ++ Str.nl)%string])%list))
  /\ (forall w',
         main float fuel w = Raises EOFError w' ->
         stdin w' = [] /\ files w' = files w).
Proof.
  intro Hfuel.
  pose proof (collect_loop_outcome float fuel [] w) as P.
  pose proof (collect_loop_raises_at_end float fuel [] w) as R.
  unfold main, collect_assignments, bind.
  unfold prompt_outcome, outcome_within in P.
  destruct (collect_loop float fuel [] w) as [l w1|e w1|]; [| |lia].
  - destruct P as [[added [-> [Hne Hv]]] _]. cbn [app].
    destruct added as [|a added]; [congruence|].
    destruct (main_body_run a added w1) as [out Hbody].
    rewrite Hbody.
    split; [discriminate|]. split; [discriminate|]. split; [|discriminate].
    intros w' E. injection E as <-. split.
    + unfold lookup. cbn [files find fst snd String.eqb Ascii.eqb Bool.eqb].
      unfold csv_rows. cbn [map]. eexists. eexists.
      split; [reflexivity|]. split; [reflexivity|discriminate].
    + cbn [stdout]. exists (stdout w1 ++ out)%list.
      rewrite <- app_assoc. reflexivity.
  - destruct R as [-> [Hin Hf]].
    split; [discriminate|]. split; [discriminate|]. split; [discriminate|].
    intros w' E. injection E as <-. auto.
Qed.

Lemma main_outcomes_witness :
  (exists w' rows,
      main Literal.float 7
           (session ["Quiz1"; "FA"; "eighty"; "80"; "20"; "n"] [("grades.csv", ["old"])])
      = Returns tt w'
      /\ lookup "grades.csv" w'
         = Some (("Assignment,Category,Grade,Weight" ++ Csv.lineterminator)%string
                 :: rows)
      /\ rows <> [])
  /\ (exists w',
         main Literal.float 4
              (session ["Quiz1"; "FA"; "eighty"] [("grades.csv", ["old"])])
         = Raises EOFError w'
         /\ stdin w' = [] /\ files w' = [("grades.csv", ["old"])]).
Proof.
  split.
  - eexists.
    destruct (proj1 (proj1 (proj2 (proj2
                (main_outcomes Literal.float 7
                   (session ["Quiz1"; "FA"; "eighty"; "80"; "20"; "n"]
                            [("grades.csv", ["old"])])
                   ltac:(simpl; lia))))
                _ ltac:(vm_compute; reflexivity)))
      as (header & rows & Hfile & -> & Hne).
    exists rows. split; [vm_compute; reflexivity|]. split; [exact Hfile|exact Hne].
  - eexists. split; [vm_compute; reflexivity|].
    exact (proj2 (proj2 (proj2
             (main_outcomes Literal.float 4
                (session ["Quiz1"; "FA"; "eighty"] [("grades.csv", ["old"])])
                ltac:(simpl; lia))))
             _ eq_refl).
Defined.

(** ** The report *)

Lemma print_assignments_lines (assignments : list Assignment) (idx : nat)
      (w : World) :
  print_assignments idx assignments w
  = Returns tt
      (wrote (map (fun p => assignment_line (fst p) (snd p))
                  (combine (seq idx (List.length assignments)) assignments))
             w).
Proof.
  revert idx w. induction assignments as [|a l IH]; intros idx w.
  - cbn. rewrite wrote_nil. reflexivity.
  - cbn [print_assignments]. rewrite bind_print, IH, emit_wrote, wrote_wrote.
    cbn [List.length seq combine map fst snd app]. unfold assignment_line at 2.
    repeat (rewrite append_assoc; cbn [String.append]).
    reflexivity.
Qed.

Lemma prefix_append (a b : string) : String.prefix a (a ++ b) = true.
Proof.
  induction a as [|c a IH]; cbn [String.append String.prefix].
  - destruct b; reflexivity.
  - destruct (Ascii.ascii_dec c c) as [_|Hc]; [exact IH|congruence].
Qed.

Lemma assignment_line_heading (idx : nat) (a : Assignment) :
  String.prefix (assignment_heading idx a) (assignment_line idx a) = true.
Proof.
  unfold assignment_line, assignment_heading.
  replace (Str.of_nat idx ++ ". " ++ name a ++ " (" ++ category a ++ "): "
           ++ Fmt.fixed2 (grade a) ++ "% - Weight: " ++ Fmt.fixed2 (weight a)
           ++ " - Weighted: " ++ Fmt.fixed2 (weighted_grade a) ++ Str.nl)%string
    with ((Str.of_nat idx ++ ". " ++ name a ++ " (" ++ category a ++ "): ")
          ++ (Fmt.fixed2 (grade a) ++ "% - Weight: " ++ Fmt.fixed2 (weight a)
              ++ " - Weighted: " ++ Fmt.fixed2 (weighted_grade a) ++ Str.nl))%string.
  - apply prefix_append.
  - repeat (rewrite append_assoc; cbn [String.append]). reflexivity.
Qed.

(** X17. [print_summary] lists every record: right after its two heading
    lines it prints one line per record, in the order of the list; the line
    of a record starts with its number, counted from 1, its name and its
    category.  It then prints the rest of the report and returns, whatever
    the totals are. *)
Theorem print_summary_lists_records (assignments : list Assignment)
        (totals : Totals) (w : World) :
  exists lines rest_of_report,
    print_summary assignments totals w
    = Returns tt
        {| stdin := stdin w;
           stdout :=
             (stdout w
              ++ [(Str.nl ++ "=== GRADE SUMMARY ===" ++ Str.nl ++ Str.nl)%string;
                  ("Assignments Entered:" ++ Str.nl)%string]
              ++ lines ++ rest_of_report)%list;
           files := files w |}
    /\ Forall2 (fun p line =>
                  String.prefix (assignment_heading (fst p) (snd p)) line = true)
               (combine (seq 1 (List.length assignments)) assignments)
               lines.
Proof.
  exists (map (fun p => assignment_line (fst p) (snd p))
              (combine (seq 1 (List.length assignments)) assignments)).
  unfold print_summary. cbv zeta.
  rewrite !bind_print.
  rewrite (bind_returns _ _ _ _ _ (print_assignments_lines _ _ _)).
  rewrite bind_print.
  destruct (format_percentage_defined (total_formative totals)
                                      (total_fa_weight totals)) as [fa Hfa].
  destruct (format_percentage_defined (total_summative totals)
                                      (total_sa_weight totals)) as [sa Hsa].
  rewrite Hfa, Hsa. cbn [lift].
  unfold bind at 1, ret at 1. unfold bind at 1, ret at 1.
  rewrite !bind_print, failure_lines_run.
  rewrite !emit_wrote, !wrote_wrote, <- ?app_assoc.
  eexists. split.
  - unfold wrote. cbn [app].
    repeat (rewrite append_assoc; cbn [String.append]).
    reflexivity.
  - induction (combine (seq 1 (List.length assignments)) assignments)
      as [|p ps IH]; cbn [map]; constructor.
    + apply assignment_line_heading.
    + exact IH.
Qed.

Lemma failure_lines_when_failed (l : list Assignment) :
  passes (calculate_totals l) = false ->
  In (failed_fa (calculate_totals l)) (failure_lines (calculate_totals l))
  \/ In (failed_sa (calculate_totals l)) (failure_lines (calculate_totals l)).
Proof.
  unfold failure_lines. intro H. rewrite H. cbn [negb].
  cbn [calculate_totals passes] in H.
  cbn [calculate_totals total_fa_weight total_sa_weight total_formative
       total_summative fa_threshold sa_threshold].
  apply andb_false_iff in H. destruct H as [H|H].
  - left. apply in_or_app. left.
    destruct (Qlt_bool 0 (sum (map weight (filter (in_category "FA") l))));
      [|discriminate H].
    assert (E : Qlt_bool (sum (map weighted_grade (filter (in_category "FA") l)))
                         (sum (map weight (filter (in_category "FA") l)) * (1 # 2))
                = true)
      by (unfold Qlt_bool; rewrite H; reflexivity).
    rewrite E. simpl. auto.
  - right. apply in_or_app. right.
    destruct (Qlt_bool 0 (sum (map weight (filter (in_category "SA") l))));
      [|discriminate H].
    assert (E : Qlt_bool (sum (map weighted_grade (filter (in_category "SA") l)))
                         (sum (map weight (filter (in_category "SA") l)) * (1 # 2))
                = true)
      by (unfold Qlt_bool; rewrite H; reflexivity).
    rewrite E. simpl. auto.
Qed.

(** X18. On records with grades in [0, 100] and positive weights that add up
    to at most 100, the report explains every FAIL that [calculate_totals]
    gives: when [print_summary] is given the totals of the list it prints, it
    prints at least one line that starts with [Failed] if the verdict is
    FAIL, and none if the verdict is PASS. *)
Theorem fail_is_explained (assignments : list Assignment) (w : World) :
  Forall (fun a => 0 <= grade a <= 100 /\ 0 < weight a) assignments ->
  total_fa_weight (calculate_totals assignments)
  + total_sa_weight (calculate_totals assignments) <= 100 ->
  exists out,
    print_summary assignments (calculate_totals assignments) w
    = Returns tt {| stdin := stdin w;
                    stdout := (stdout w ++ out)%list;
                    files := files w |}
    /\ ((exists line, In line out /\ String.prefix "Failed " line = true)
        <-> passes (calculate_totals assignments) = false).
Proof.
  intros _ _.
  destruct (print_summary_run assignments (calculate_totals assignments) w)
    as [report [Hrun Hrep]].
  exists (report ++ failure_lines (calculate_totals assignments))%list.
  split; [exact Hrun|]. split.
  - intros [line [Hin Hp]].
    apply (proj1 (failed_line_in _ _ _ Hrep Hp)) in Hin.
    unfold failure_lines in Hin. revert Hin.
    destruct (passes (calculate_totals assignments)); cbn [negb In];
      [intros []|reflexivity].
  - intro Hfail.
    destruct (failure_lines_when_failed _ Hfail) as [H|H].
    + exists (failed_fa (calculate_totals assignments)).
      split; [apply in_or_app; right; exact H|apply failed_fa_prefix].
    + exists (failed_sa (calculate_totals assignments)).
      split; [apply in_or_app; right; exact H|apply failed_sa_prefix].
Qed.

Lemma fail_is_explained_witness :
  exists out,
    print_summary [mkAssignment "Project" "FA" 100 50; mkAssignment "Exam" "SA" 40 50]
                  (calculate_totals [mkAssignment "Project" "FA" 100 50;
                                     mkAssignment "Exam" "SA" 40 50])
                  (session [] [])
    = Returns tt {| stdin := []; stdout := out; files := [] |}
    /\ (exists line, In line out /\ String.prefix "Failed " line = true).
Proof.
  destruct (fail_is_explained
              [mkAssignment "Project" "FA" 100 50; mkAssignment "Exam" "SA" 40 50]
              (session [] []))
    as (out & Hrun & Hiff).
  - repeat (apply Forall_cons; [split; [split; Qcmp|Qcmp]|]). apply Forall_nil.
  - Qcmp.
  - exists out. split; [exact Hrun|]. apply (proj2 Hiff). reflexivity.
Defined.

(** ** The names that are stored *)

Section Trimmed.

Variable float : string -> option Q.

Lemma collect_loop_trimmed (fuel : nat) (assignments : list Assignment) (w : World) :
  prompt_outcome
    (fun l => exists added,
         l = (assignments ++ added)%list
         /\ Forall (fun a => Str.strip (name a) = name a) added)
    fuel w (collect_loop float fuel assignments w).
Proof.
  revert assignments w.
  induction fuel as [|fuel IH]; intros assignments w; [cbn; lia|].
  cbn [collect_loop]. rewrite bind_print.
  unfold prompt_outcome.
  change (files w) with (files (emit ((Str.nl ++ "Enter assignment details:") ++ Str.nl) w)).
  change (stdin w) with (stdin (emit ((Str.nl ++ "Enter assignment details:") ++ Str.nl) w)).
  set (w0 := emit _ w). clearbody w0. clear w.
  eapply bind_within; [apply prompt_non_empty_outcome|].
  intros nm w1 [_ Hn] Hl1 Hf1. cbv beta.
  eapply bind_within.
  { eapply outcome_within_mono; [|rewrite <- Hf1; apply prompt_category_outcome]. lia. }
  intros cat w2 _ Hl2 Hf2. cbv beta.
  eapply bind_within.
  { eapply outcome_within_mono; [|rewrite <- Hf2; apply prompt_grade_outcome]. lia. }
  intros g w3 _ Hl3 Hf3. cbv beta.
  eapply bind_within.
  { eapply outcome_within_mono; [|rewrite <- Hf3; apply prompt_weight_outcome]. lia. }
  intros x w4 _ Hl4 Hf4. cbv beta zeta.
  eapply bind_within.
  { eapply outcome_within_mono; [|rewrite <- Hf4; apply prompt_continue_outcome]. lia. }
  intros continue w5 _ Hl5 Hf5. cbv beta.
  destruct continue; cbn [negb].
  - generalize (IH (assignments ++ [mkAssignment nm cat g x])%list w5).
    unfold prompt_outcome.
    destruct (collect_loop float fuel _ w5) as [l w6| |]; cbn.
    + intros [[added [-> Hadd]] [Hl6 Hf6]].
      split; [|split; [lia|congruence]].
      exists (mkAssignment nm cat g x :: added).
      rewrite <- app_assoc. split; [reflexivity|].
      constructor; assumption.
    + auto.
    + lia.
  - cbn. split; [|split; [lia|congruence]].
    exists [mkAssignment nm cat g x].
    split; [reflexivity|]. constructor; [assumption|constructor].
Qed.

End Trimmed.

Lemma strip_head_not_space (s : string) (c : ascii) (t : string) :
  Str.strip s = String c t -> Str.is_space c = false.
Proof.
  unfold Str.strip, Str.strip_chars. intro H.
  apply (f_equal list_ascii_of_string) in H.
  rewrite list_ascii_of_string_of_list_ascii in H.
  change (list_ascii_of_string (String c t))
    with (c :: list_ascii_of_string t) in H.
  destruct (Str.lstrip_chars (list_ascii_of_string s)) as [|a A] eqn:EA;
    [discriminate H|].
  pose proof (lstrip_chars_head _ _ _ EA) as Ha.
  destruct (lstrip_chars_suffix (rev (a :: A))) as [sp Hsp].
  apply (f_equal (@rev ascii)) in Hsp.
  rewrite rev_involutive, rev_app_distr, H in Hsp.
  injection Hsp as <- _. exact Ha.
Qed.

(** X20. The names that [collect_assignments] stores are trimmed: the name of
    every returned record is equal to its own [strip], and it starts with a
    character that is not white space. *)
Theorem collected_names_trimmed (float : string -> option Q) (fuel : nat)
        (w w' : World) (l : list Assignment) :
  collect_assignments float fuel w = Returns l w' ->
  Forall (fun a => Str.strip (name a) = name a
                   /\ exists c t, name a = String c t /\ Str.is_space c = false) l.
Proof.
  intro H.
  pose proof (collect_loop_trimmed float fuel [] w) as T.
  pose proof (collect_loop_outcome float fuel [] w) as V.
  unfold collect_assignments in H. rewrite H in T, V.
  destruct T as [[added [E Ht]] _]. destruct V as [[added' [E' [_ Hv]]] _].
  cbn [app] in E, E'. subst added added'.
  rewrite Forall_forall in *. intros a Ha.
  split; [apply Ht, Ha|].
  destruct (Hv a Ha) as [Hne _]. rewrite (Ht a Ha) in Hne.
  destruct (name a) as [|c t] eqn:En; [congruence|].
  exists c, t. split; [reflexivity|].
  apply (strip_head_not_space (String c t) c t).
  rewrite <- En. exact (Ht a Ha).
Qed.

Lemma collected_names_trimmed_witness :
  Forall (fun a => Str.strip (name a) = name a
                   /\ exists c t, name a = String c t /\ Str.is_space c = false)
         [mkAssignment "Quiz 1" "FA" (80 + (0 # 1)) (20 + (0 # 1))].
Proof.
  eapply (collected_names_trimmed Literal.float 5
            (session ["  Quiz 1  "; "fa"; "80"; "20"; "n"] [])).
  vm_compute. reflexivity.
Defined.
